(** * NCFile: the NetCDF4 snapshot writer of mpi4py-fft

    A shallow embedding of [mpi4py_fft/utilities/nc_file.py] and the
    properties of its write, slice and read paths.

    Conventions of the model.
    - Floating-point values are idealised as real numbers; the store keeps
      the values it is given unchanged.  This is what the store does for
      a variable of dtype ['f'] or ['d'] and for the values these dtypes
      hold exactly.  The store has no type for ['g'] (it raises
      [TypeError]), and it rounds an integer beyond the exact range of the
      dtype, or raises [OverflowError]; neither is modelled, and the
      statements that depend on it carry the dtype and the range of the
      steps as hypotheses.
    - The NetCDF4 [Dataset] is an external library.  It is modelled by the
      state the program can observe (dimensions, variables, the current
      length of the unlimited dimension) together with the log of the
      calls issued on it.
    - A Python exception is a [Raise]; the object mutated before the
      exception keeps its mutations, as in Python. *)

From Stdlib Require Import Reals Lra Ascii.
From stdpp Require Import base gmap strings list list_numbers pretty.

Local Open Scope string_scope.
Local Open Scope list_scope.

(** ** Exceptions and results *)

Inductive exn :=
| AssertionError (cond : string)
| AttributeError
| IndexError
| KeyError
| NotImplementedError
| RuntimeError
| TypeError
| ValueError.

Inductive result (A : Type) :=
| Ok (a : A)
| Raise (e : exn).
Arguments Ok {A} a.
Arguments Raise {A} e.

Definition rbind {A B} (r : result A) (k : A → result B) : result B :=
  match r with
  | Ok a => k a
  | Raise e => Raise e
  end.

Definition is_Ok {A} (r : result A) : Prop :=
  match r with Ok _ => True | Raise _ => False end.

(** ** The store: a NetCDF4 dataset *)

(** One entry of an index expression [v[...]]. *)
Inductive sel :=
| At (i : Z)
| Range (start stop : Z).

Definition sel_indices (s : sel) : list Z :=
  match s with
  | At i => [i]
  | Range a b => seqZ a (b - a)
  end.

(** The index tuples selected by an index expression, in row-major
    order. *)
Fixpoint region (key : list sel) : list (list Z) :=
  match key with
  | [] => [[]]
  | s :: key' => i ← sel_indices s; (cons i) <$> region key'
  end.

Inductive call :=
| c_createDimension (name : string) (size : option nat)
| c_createVariable (name : string) (dtype : ascii) (dims : list string)
| c_set_collective (var : string) (b : bool)
| c_setncattr_string (var attr value : string)
| c_setitem (var : string) (key : list sel) (data : list R)
| c_sync.

Record ncvar := {
  v_dtype : ascii;
  v_dimensions : list string;
  v_collective : bool;
  v_ncattrs : list (string * string);
  v_data : gmap (list Z) R
}.

Record Dataset := {
  dimensions : list (string * option nat);
  variables : gmap string ncvar;
  (** current length of the unlimited dimension *)
  time_len : nat;
  calls : list call
}.

Definition empty_Dataset : Dataset :=
  {| dimensions := []; variables := ∅; time_len := 0; calls := [] |}.

Definition log (c : call) (ds : Dataset) : Dataset :=
  {| dimensions := dimensions ds; variables := variables ds;
     time_len := time_len ds; calls := calls ds ++ [c] |}.

Definition set_variables (vs : gmap string ncvar) (ds : Dataset) : Dataset :=
  {| dimensions := dimensions ds; variables := vs;
     time_len := time_len ds; calls := calls ds |}.

Definition createDimension (name : string) (size : option nat) (ds : Dataset)
  : Dataset :=
  log (c_createDimension name size)
    {| dimensions := dimensions ds ++ [(name, size)];
       variables := variables ds; time_len := time_len ds;
       calls := calls ds |}.

(** The library refuses a name that is in use.  The dtype is taken to be
    one the store has a type for, ['f'] or ['d']. *)
Definition createVariable (name : string) (dt : ascii) (dims : list string)
    (ds : Dataset) : result Dataset :=
  match variables ds !! name with
  | Some _ => Raise RuntimeError
  | None =>
      Ok (log (c_createVariable name dt dims)
            (set_variables
               (<[name := {| v_dtype := dt; v_dimensions := dims;
                             v_collective := false; v_ncattrs := [];
                             v_data := ∅ |}]> (variables ds)) ds))
  end.

Definition set_collective (var : string) (b : bool) (ds : Dataset) : Dataset :=
  log (c_set_collective var b)
    (set_variables
       (alter (λ v, {| v_dtype := v_dtype v; v_dimensions := v_dimensions v;
                       v_collective := b; v_ncattrs := v_ncattrs v;
                       v_data := v_data v |}) var (variables ds)) ds).

Definition setncattr_string (var attr value : string) (ds : Dataset)
  : Dataset :=
  log (c_setncattr_string var attr value)
    (set_variables
       (alter (λ v, {| v_dtype := v_dtype v; v_dimensions := v_dimensions v;
                       v_collective := v_collective v;
                       v_ncattrs := v_ncattrs v ++ [(attr, value)];
                       v_data := v_data v |}) var (variables ds)) ds).

(** [v[key]] has one axis per range of the key. *)
Definition key_shape (key : list sel) : list nat :=
  omap (λ s, match s with
             | At _ => None
             | Range a b => Some (Z.to_nat (b - a))
             end) key.

(** A numpy array: its shape and its elements in row-major order. *)
Record ndarray := {
  nd_shape : list nat;
  nd_data : list R
}.

Definition store_cells (keys : list (list Z)) (data : list R)
    (m : gmap (list Z) R) : gmap (list Z) R :=
  list_to_map (zip keys data) ∪ m.

(** The length the unlimited dimension must have for [key] to be inside
    a variable whose first dimension is [time]. *)
Definition time_extent (dims : list string) (key : list sel) : nat :=
  match dims, key with
  | d :: _, At i :: _ => if decide (d = "time") then Z.to_nat (i + 1) else 0
  | _, _ => 0
  end.

(** [v[key] = u].  The key has one index per dimension of the variable:
    the store raises [ValueError] for a key with more indices, and a key
    with fewer, which selects whole trailing axes in the store, is
    refused here.  A block whose shape is not that of the selected
    region is refused too (broadcasting is not modelled). *)
Definition setitem (var : string) (key : list sel) (u : ndarray)
    (ds : Dataset) : result Dataset :=
  match variables ds !! var with
  | None => Raise IndexError
  | Some v =>
      if decide (nd_shape u = key_shape key
                 ∧ length (nd_data u) = length (region key)
                 ∧ length key = length (v_dimensions v)) then
        Ok (log (c_setitem var key (nd_data u))
              {| dimensions := dimensions ds;
                 variables :=
                   <[var := {| v_dtype := v_dtype v;
                               v_dimensions := v_dimensions v;
                               v_collective := v_collective v;
                               v_ncattrs := v_ncattrs v;
                               v_data := store_cells (region key) (nd_data u)
                                           (v_data v) |}]> (variables ds);
                 time_len := time_len ds `max` time_extent (v_dimensions v) key;
                 calls := calls ds |})
      else Raise ValueError
  end.

Definition sync (ds : Dataset) : Dataset := log c_sync ds.

(** The default fill value of a floating variable, read from a cell that
    was never written. *)
Definition fill_value : R := (9969209968386869 * 10 ^ 21)%R.

(** [f[var][key]], for a key that starts with a time index.  As for
    [setitem], the key has one index per dimension of the variable. *)
Definition getitem (var : string) (step : nat) (key : list sel)
    (ds : Dataset) : result ndarray :=
  match variables ds !! var with
  | None => Raise IndexError
  | Some v =>
      if decide (S (length key) = length (v_dimensions v)) then
        if decide (step < time_len ds)%nat then
          Ok {| nd_shape := key_shape key;
                nd_data := (λ k, default fill_value (v_data v !! k))
                             <$> region (At (Z.of_nat step) :: key) |}
        else Raise IndexError
      else Raise ValueError
  end.

(** A Python scalar stored into a cell. *)
Definition scalar (x : R) : ndarray := {| nd_shape := []; nd_data := [x] |}.

(** One entry of a slice specification: an [int] or [slice(None)]. *)
Inductive slice_entry :=
| Fixed (k : Z)
| Whole.

#[global] Instance slice_entry_eq_dec : EqDecision slice_entry.
Proof. solve_decision. Defined.

#[global] Instance result_ret : MRet result := λ A a, Ok a.
#[global] Instance result_bind : MBind result := λ A B k r, rbind r k.

Definition from_option {A} (e : exn) (o : option A) : result A :=
  match o with
  | Some a => Ok a
  | None => Raise e
  end.

Definition prod_list (l : list nat) : nat := foldr Nat.mul 1%nat l.

(** numpy accepts an index in [-n, n) on an axis of length [n]. *)
Definition norm_index (k : Z) (n : nat) : option nat :=
  if decide (0 ≤ k < Z.of_nat n)%Z then Some (Z.to_nat k)
  else if decide (- Z.of_nat n ≤ k < 0)%Z then Some (Z.to_nat (k + Z.of_nat n))
  else None.

Fixpoint getitem_shape (sh : list nat) (sl : list slice_entry)
  : option (list nat) :=
  match sl, sh with
  | [], _ => Some sh
  | _ :: _, [] => None
  | Fixed k :: sl', n :: sh' => _ ← norm_index k n; getitem_shape sh' sl'
  | Whole :: sl', n :: sh' => cons n <$> getitem_shape sh' sl'
  end.

Fixpoint getitem_data (sh : list nat) (sl : list slice_entry) (d : list R)
  : option (list R) :=
  match sl, sh with
  | [], _ => Some d
  | _ :: _, [] => None
  | e :: sl', n :: sh' =>
      let stride := prod_list sh' in
      let row (j : nat) := take stride (drop (j * stride) d) in
      match e with
      | Fixed k => j ← norm_index k n; getitem_data sh' sl' (row j)
      | Whole =>
          mjoin <$> mapM (λ j, getitem_data sh' sl' (row j)) (seq 0 n)
      end
  end.

(** [u[sl]] *)
Definition nd_getitem (u : ndarray) (sl : list slice_entry) : result ndarray :=
  match getitem_shape (nd_shape u) sl, getitem_data (nd_shape u) sl (nd_data u) with
  | Some sh, Some d => Ok {| nd_shape := sh; nd_data := d |}
  | _, _ => Raise IndexError
  end.

(** [str(k)] of an [int]. *)
Definition str (k : Z) : string := pretty k.

Definition repr (x : slice_entry) : string :=
  match x with
  | Fixed k => str k
  | Whole => "slice(None, None, None)"
  end.

(** [str(slices)] of a list. *)
Definition str_list (slices : list slice_entry) : string :=
  "[" +:+ String.concat ", " (repr <$> slices) +:+ "]".

(** ** The decomposition object [T] *)

(** What the writer asks of the [PFFT] instance: [T.shape(False)],
    [T.local_slice(False)] as (start, stop) pairs, [T.ndim()] and
    [T.dtype(False).char]. *)
Record PFFT := {
  shape : list nat;
  local_slice : list (Z * Z);
  ndim : nat;
  dtype : ascii
}.

Definition py_slice (r : Z * Z) : sel := Range r.1 r.2.

(** ** The base class [FileBase] *)

(** Modelled from the spec: the text [FileBase._get_slice_name] puts for
    a whole axis ([file_base.py] is not among the sources); the spec only
    calls it a wildcard marker. *)
Definition wildcard : string := "slice".

(** Modelled from the spec: [FileBase._get_slice_name], which is defined
    in [file_base.py], not among the sources.  "for each axis, either the
    literal fixed index or a wildcard marker, joined by a fixed
    separator". *)
Definition _get_slice_name (slices : list slice_entry) : string :=
  String.concat "_"
    ((λ x, match x with Fixed k => str k | Whole => wildcard end) <$> slices).

(** Modelled from the spec: [FileBase._get_local_slices], which is
    defined in [file_base.py], not among the sources.  "for a fixed index
    k on axis i, the selector contributes a local offset k − local_start[i]
    if local_start[i] ≤ k < local_stop[i], else the axis contributes
    nothing and inside = false; for a whole-axis entry, the selector is
    the full local range".  An axis that contributes no offset keeps its
    entry, so that the axes keep their positions. *)
Fixpoint _get_local_slices (slices : list slice_entry) (s : list (Z * Z))
  : list slice_entry * bool :=
  match slices, s with
  | Fixed k :: slices', (start, stop) :: s' =>
      let r := _get_local_slices slices' s' in
      if decide (start ≤ k < stop)%Z
      then (Fixed (k - start) :: r.1, r.2)
      else (Fixed k :: r.1, false)
  | Whole :: slices', _ :: s' =>
      let r := _get_local_slices slices' s' in
      (Whole :: r.1, r.2)
  | _, _ => (slices, true)
  end.

(** ** The writer *)

(** The attributes of an [NCFile] instance.  [dims], [nc_t] and [handles]
    are set only when the file is opened with mode ['w'].  [nc_t] and the
    values of [handles] are references to variables of [f]: they are
    modelled by the name the variable has in [f]. *)
Record NCFile := {
  self_f : Dataset;
  self_T : PFFT;
  self_N : list nat;
  self_dtype : ascii;
  self_dims : option (list string);
  self_nc_t : option string;
  self_handles : option (gmap string string)
}.

Definition set_f (ds : Dataset) (self : NCFile) : NCFile :=
  {| self_f := ds; self_T := self_T self; self_N := self_N self;
     self_dtype := self_dtype self; self_dims := self_dims self;
     self_nc_t := self_nc_t self; self_handles := self_handles self |}.

Definition set_handles (h : gmap string string) (self : NCFile) : NCFile :=
  {| self_f := self_f self; self_T := self_T self; self_N := self_N self;
     self_dtype := self_dtype self; self_dims := self_dims self;
     self_nc_t := self_nc_t self; self_handles := Some h |}.

(** A method body: it may mutate [self] and may raise. *)
Definition M (A : Type) : Type := NCFile → NCFile * result A.

#[global] Instance M_ret : MRet M := λ A a self, (self, Ok a).
#[global] Instance M_bind : MBind M := λ A B k m self,
  match m self with
  | (self', Ok a) => k a self'
  | (self', Raise e) => (self', Raise e)
  end.

Definition raise {A} (e : exn) : M A := λ self, (self, Raise e).
Definition lift {A} (r : result A) : M A := λ self, (self, r).
Definition gets {A} (p : NCFile → A) : M A := λ self, (self, Ok (p self)).
Definition getattr {A} (p : NCFile → option A) : M A :=
  λ self, (self, from_option AttributeError (p self)).

(** A call on [self.f] that cannot fail, and one that can. *)
Definition on_f (op : Dataset → Dataset) : M unit :=
  λ self, (set_f (op (self_f self)) self, Ok tt).
Definition try_f (op : Dataset → result Dataset) : M unit :=
  λ self,
    match op (self_f self) with
    | Ok ds => (set_f ds self, Ok tt)
    | Raise e => (self, Raise e)
    end.

Definition modify (g : NCFile → NCFile) : M unit :=
  λ self, (g self, Ok tt).

(** [self.handles[name] = var] *)
Definition put_handle (name var : string) : M unit :=
  h ← getattr self_handles;
  modify (set_handles (<[name := var]> h)).

(** [self.handles[name]] *)
Definition get_handle (name : string) : M string :=
  h ← getattr self_handles;
  lift (from_option KeyError (h !! name)).

(** [l[i]] on a Python list. *)
Definition index {A} (l : list A) (i : nat) : M A :=
  lift (from_option IndexError (l !! i)).

(** [np.take(l, idx)] *)
Definition np_take {A} (l : list A) (idx : list nat) : M (list A) :=
  lift (from_option IndexError (mapM (λ i, l !! i) idx)).

Fixpoint nonzero_from (i : nat) (bs : list bool) : list nat :=
  match bs with
  | [] => []
  | b :: bs' => (if b then [i] else []) ++ nonzero_from (S i) bs'
  end.

(** [np.nonzero(bs)[0]] *)
Definition nonzero (bs : list bool) : list nat := nonzero_from 0 bs.

(** [isinstance(x, slice)] *)
Definition isinstance_slice (x : slice_entry) : bool :=
  match x with
  | Whole => true
  | Fixed _ => false
  end.

(** [NCFile._write_group] *)
Definition _write_group (name : string) (u : ndarray) (it : nat) : M unit :=
  s ← gets (λ self, local_slice (self_T self));
  handles ← getattr self_handles;
  (if decide (name ∈ dom handles) then mret tt
   else
     dt ← gets self_dtype;
     dims ← getattr self_dims;
     try_f (createVariable name dt dims);;
     put_handle name name;;
     h ← get_handle name;
     on_f (set_collective h true));;
  nd ← gets (λ self, ndim (self_T self));
  (if decide (nd = 3%nat) then
     h ← get_handle name;
     s0 ← index s 0; s1 ← index s 1; s2 ← index s 2;
     try_f (setitem h [At (Z.of_nat it); py_slice s0; py_slice s1; py_slice s2] u)
   else if decide (nd = 2%nat) then
     h ← get_handle name;
     s0 ← index s 0; s1 ← index s 1;
     try_f (setitem h [At (Z.of_nat it); py_slice s0; py_slice s1] u)
   else raise NotImplementedError);;
  on_f sync.

(** The creation block of [_write_slice_step], taken when [fname] is not
    in [self.handles]. *)
Definition create_slice_variable (fname : string) (sdims : list string)
    (slices : list slice_entry) : M unit :=
  handles ← getattr self_handles;
  if decide (fname ∈ dom handles) then mret tt
  else
    dt ← gets self_dtype;
    try_f (createVariable fname dt sdims);;
    put_handle fname fname;;
    h ← get_handle fname;
    on_f (set_collective h true);;
    h ← get_handle fname;
    on_f (setncattr_string h "slices" (str_list slices)).

(** The data block of [_write_slice_step], taken when [inside] holds:
    one assignment for one, two or three ranged axes, none otherwise.
    Python evaluates the right-hand side [u[sl]] before the target. *)
Definition write_slice_data (fname : string) (it : nat) (sf : list (Z * Z))
    (u : ndarray) (sl : list slice_entry) : M unit :=
  match sf with
  | [sf0; sf1; sf2] =>
      v ← lift (nd_getitem u sl);
      h ← get_handle fname;
      try_f (setitem h [At (Z.of_nat it); py_slice sf0; py_slice sf1;
                        py_slice sf2] v)
  | [sf0; sf1] =>
      v ← lift (nd_getitem u sl);
      h ← get_handle fname;
      try_f (setitem h [At (Z.of_nat it); py_slice sf0; py_slice sf1] v)
  | [sf0] =>
      v ← lift (nd_getitem u sl);
      h ← get_handle fname;
      try_f (setitem h [At (Z.of_nat it); py_slice sf0] v)
  | _ => mret tt
  end.

(** [NCFile._write_slice_step] *)
Definition _write_slice_step (name : string) (it : nat)
    (slices : list slice_entry) (u : ndarray) : M unit :=
  let slname := _get_slice_name slices in
  s ← gets (λ self, local_slice (self_T self));
  let '(slices, inside) := _get_local_slices slices s in
  let sp := nonzero (isinstance_slice <$> slices) in
  sf ← np_take s sp;
  dims ← getattr self_dims;
  sd ← np_take dims ((λ p, p + 1)%nat <$> sp);
  let sdims := "time" :: sd in
  let fname := String.concat "_" [name; slname] in
  create_slice_variable fname sdims slices;;
  let sl := slices in
  (if inside then write_slice_data fname it sf u sl else mret tt);;
  on_f sync.

(** A value of the [fields] dictionary: a complete array, or an array
    with its global slices. *)
Inductive field :=
| FullBlock (u : ndarray)
| SlicedBlock (slices : list slice_entry) (u : ndarray).

(** Modelled from the spec: [FileBase.write], which is defined in
    [file_base.py], not among the sources.  "Full arrays go to the Schema
    Manager/Variable Cache for a whole-block collective write; slice
    requests go through the Slice Mapper".  The fields are visited in the
    order of the dictionary. *)
Fixpoint FileBase_write (step : nat) (fields : list (string * field)) : M unit :=
  match fields with
  | [] => mret tt
  | (name, FullBlock u) :: rest =>
      _write_group name u step;; FileBase_write step rest
  | (name, SlicedBlock slices u) :: rest =>
      _write_slice_step name step slices u;; FileBase_write step rest
  end.

(** [v.size] of a variable over the unlimited dimension alone. *)
Definition var_size (var : string) : M nat :=
  gets (λ self, time_len (self_f self)).

(** [NCFile.write].  The step is stored as the real number of the
    integer: the conversion of [self.nc_t[it] = step] to the dtype of the
    variable is exact for the steps of [exact_step] below, and is not
    modelled beyond. *)
Definition write (step : Z) (fields : list (string * field)) : M unit :=
  nc_t ← getattr self_nc_t;
  it ← var_size nc_t;
  try_f (setitem nc_t [At (Z.of_nat it)] (scalar (IZR step)));;
  FileBase_write it fields.

(** [NCFile.read]: the array copied into [u]. *)
Definition read (dset : string) (step : nat) : M ndarray :=
  s ← gets (λ self, local_slice (self_T self));
  ds ← gets self_f;
  lift (getitem dset step (py_slice <$> s) ds).

(** ** Construction *)

(** One entry of [domain]: a tuple, documented as (origin, length), or an
    array of coordinates. *)
Inductive domain_entry :=
| bounds (t : list R)
| coords (a : list R).

(** [isinstance(e, np.ndarray)] *)
Definition isinstance_ndarray (e : domain_entry) : bool :=
  match e with
  | coords _ => true
  | bounds _ => false
  end.

Definition values (e : domain_entry) : list R :=
  match e with
  | bounds t => t
  | coords a => a
  end.

(** [np.arange(n, dtype=np.float)*2*np.pi/n] *)
Definition arange_2pi (n : nat) : list R :=
  (λ j, (INR j * 2 * PI / INR n)%R) <$> seq 0 n.

(** [{0:'x', 1:'y', 2:'z'}[i]] *)
Definition xyz (i : nat) : result string :=
  match i with
  | 0%nat => Ok "x"
  | 1%nat => Ok "y"
  | 2%nat => Ok "z"
  | _ => Raise KeyError
  end.

(** The loop over the axes, from axis [i] on: it threads the dataset and
    [self.dims]. *)
Fixpoint create_axes (N : list nat) (dt : ascii) (i : nat)
    (d : list (list R)) (st : Dataset * list string)
  : result (Dataset * list string) :=
  match d with
  | [] => Ok st
  | di :: d' =>
      name ← xyz i;
      n ← from_option IndexError (N !! i);
      let f := createDimension name (Some n) st.1 in
      f ← createVariable name dt [name] f;
      f ← setitem name [Range 0 (Z.of_nat n)]
            {| nd_shape := [length di]; nd_data := di |} f;
      create_axes N dt (S i) d' (f, (st.2 ++ [name])%list)
  end.

(** [Dataset(ncname, mode=mode, ...)]: mode ['w'] starts a new file, any
    other mode opens what is on disk. *)
Definition Dataset_open (disk : Dataset) (mode : string) : Dataset :=
  if decide (mode = "w") then empty_Dataset else disk.

(** [dtype.char in 'fdg'] *)
Definition char_in_fdg (c : ascii) : bool :=
  bool_decide (c ∈ ["f"; "d"; "g"]%char).

(** [NCFile.__init__].  [FileBase.__init__] keeps [T] and [domain]. *)
Definition NCFile_init (disk : Dataset) (T : PFFT)
    (domain : option (list domain_entry)) (mode : string) : result NCFile :=
  let f := Dataset_open disk mode in
  let N := shape T in
  let dt := dtype T in
  if negb (char_in_fdg dt) then Raise (AssertionError "dtype.char in 'fdg'")
  else if decide (mode = "w") then
    let f := createDimension "time" None f in
    f ← createVariable "time" dt ["time"] f;
    let f := set_collective "time" true f in
    domain ← from_option TypeError domain;
    d0 ← from_option IndexError (domain !! 0%nat);
    d ← (if isinstance_ndarray d0 then Ok (values <$> domain)
         else if decide (length (values d0) = 2%nat) then
           mapM (λ i, n ← from_option IndexError (N !! i); Ok (arange_2pi n))
                (seq 0 (length domain))
         else Raise (AssertionError "len(domain[0]) == 2"));
    st ← create_axes N dt 0 d (f, ["time"]);
    Ok {| self_f := sync st.1; self_T := T; self_N := N; self_dtype := dt;
          self_dims := Some st.2; self_nc_t := Some "time";
          self_handles := Some ∅ |}
  else
    Ok {| self_f := f; self_T := T; self_N := N; self_dtype := dt;
          self_dims := None; self_nc_t := None; self_handles := None |}.

(** * Notions used by the statements *)

(** The name of the variable of a sliced write. *)
Definition slice_fname (name : string) (slices : list slice_entry) : string :=
  String.concat "_" [name; _get_slice_name slices].

(** The axes of a slice specification that remain ranged. *)
Definition ranged (slices : list slice_entry) : list nat :=
  nonzero (isinstance_slice <$> slices).

(** The calls of the creation path, taken when the name is not cached. *)
Definition creation_calls (handles : gmap string string) (fname : string)
    (dt : ascii) (sdims : list string) (attr : string) : list call :=
  if decide (fname ∈ dom handles) then []
  else [c_createVariable fname dt sdims;
        c_set_collective fname true;
        c_setncattr_string fname "slices" attr].

Definition is_setitem (c : call) : bool :=
  match c with
  | c_setitem _ _ _ => true
  | _ => false
  end.

(** The writer after the creation block has created [fname]. *)
Definition slice_created (handles : gmap string string) (fname : string)
    (sdims : list string) (attr : string) (self : NCFile) : NCFile :=
  set_f
    (setncattr_string fname "slices" attr
       (set_collective fname true
          (log (c_createVariable fname (self_dtype self) sdims)
             (set_variables
                (<[fname := {| v_dtype := self_dtype self;
                               v_dimensions := sdims;
                               v_collective := false; v_ncattrs := [];
                               v_data := ∅ |}]> (variables (self_f self)))
                (self_f self)))))
    (set_handles (<[fname := fname]> handles) self).

(** The calls issued since an earlier state of the writer. *)
Definition new_calls (self self' : NCFile) : list call :=
  drop (length (calls (self_f self))) (calls (self_f self')).

(** What a call contributes to the metadata protocol: a data write
    contributes nothing, and the text of an attribute is left out. *)
Definition metadata_part (c : call) : option call :=
  match c with
  | c_setitem _ _ _ => None
  | c_setncattr_string var attr _ => Some (c_setncattr_string var attr "")
  | c => Some c
  end.

(** The dataset once the time axis has been set up. *)
Definition time_schema (dt : ascii) : Dataset :=
  set_collective "time" true
    (log (c_createVariable "time" dt ["time"])
       (set_variables
          (<["time" := {| v_dtype := dt; v_dimensions := ["time"];
                          v_collective := false; v_ncattrs := [];
                          v_data := ∅ |}]> ∅)
          (createDimension "time" None empty_Dataset))).

(** The coordinate of index [j] on the axis called [name]. *)
Definition coordinate (ds : Dataset) (name : string) (j : nat) : option R :=
  variables ds !! name ≫= λ v, v_data v !! [Z.of_nat j].

(** The uniform grid over an (origin, length) pair, as the words of the
    specification have it: [n] points from the origin on, [length / n]
    apart. *)
Definition uniform_grid (origin len : R) (n j : nat) : R :=
  (origin + INR j * len / INR n)%R.

(** What a handler of a step leaves alone: the reference [nc_t], the
    length of the time axis, and the cells of the time variable. *)
Definition keeps (self self' : NCFile) : Prop :=
  self_nc_t self' = self_nc_t self
  ∧ time_len (self_f self') = time_len (self_f self)
  ∧ ∀ v, variables (self_f self) !! "time" = Some v →
      ∃ v', variables (self_f self') !! "time" = Some v'
            ∧ v_dimensions v' = v_dimensions v
            ∧ ∀ i : Z, v_data v' !! [i] = v_data v !! [i].

(** A method body that keeps the time axis when it runs at a step [it]
    that the axis already holds. *)
Definition frame {A} (it : nat) (m : M A) : Prop :=
  ∀ self, (it < time_len (self_f self))%nat → keeps self (m self).1.

(** A sequence of calls of [write], each on the writer the call before
    left behind (an exception does not undo what a call has done). *)
Fixpoint writes (reqs : list (Z * list (string * field))) (self : NCFile)
  : NCFile :=
  match reqs with
  | [] => self
  | (step, fields) :: reqs' => writes reqs' (write step fields self).1
  end.

(** The time axis, cell by cell. *)
Definition time_axis (ds : Dataset) : list (option R) :=
  (λ i, coordinate ds "time" i) <$> seq 0 (time_len ds).

(** The time axis holds exactly the values [steps], in this order. *)
Definition time_axis_is (self : NCFile) (steps : list Z) : Prop :=
  self_nc_t self = Some "time"
  ∧ time_len (self_f self) = length steps
  ∧ ∃ v, variables (self_f self) !! "time" = Some v
         ∧ v_dimensions v = ["time"]
         ∧ ∀ i : nat, v_data v !! [Z.of_nat i] = IZR <$> steps !! i.

(** The two workers of a global shape (8,8) split by rows, and a worker of
    a one-dimensional decomposition. *)
Definition worker0 : PFFT :=
  {| shape := [8; 8]%nat; local_slice := [(0, 4); (0, 8)]%Z; ndim := 2;
     dtype := "d"%char |}.
Definition worker1 : PFFT :=
  {| shape := [8; 8]%nat; local_slice := [(4, 8); (0, 8)]%Z; ndim := 2;
     dtype := "d"%char |}.
Definition worker_1d : PFFT :=
  {| shape := [8]%nat; local_slice := [(0, 8)]%Z; ndim := 1;
     dtype := "d"%char |}.
Definition worker_complex : PFFT :=
  {| shape := [8; 8]%nat; local_slice := [(0, 4); (0, 8)]%Z; ndim := 2;
     dtype := "D"%char |}.

Definition tuple_domain (origin len : R) (axes : nat) : list domain_entry :=
  replicate axes (bounds [origin; len]).

(** The writer [NCFile(ncname, T, domain)] of a new file. *)
Definition open_w (T : PFFT) (domain : list domain_entry) : NCFile :=
  match NCFile_init empty_Dataset T (Some domain) "w" with
  | Ok self => self
  | Raise _ =>
      {| self_f := empty_Dataset; self_T := T; self_N := [];
         self_dtype := dtype T; self_dims := None; self_nc_t := None;
         self_handles := None |}
  end.

(** A block of [rows] by [cols] distinct values. *)
Definition block (rows cols : nat) : ndarray :=
  {| nd_shape := [rows; cols]; nd_data := INR <$> seq 0 (rows * cols) |}.

(** The names of the spatial axes, in the order of the dictionary of
    [__init__]. *)
Definition axes : list string := ["x"; "y"; "z"].

(** The variable a full-field write of [name] assigns into: the variable
    of the file when there is one, the one the creation block makes
    otherwise. *)
Definition group_variable (self : NCFile) (name : string) : ncvar :=
  match variables (self_f self) !! name with
  | Some v => v
  | None => {| v_dtype := self_dtype self;
               v_dimensions := default [] (self_dims self);
               v_collective := true; v_ncattrs := []; v_data := ∅ |}
  end.

(** The variable [v] holding the cells [d]. *)
Definition with_data (v : ncvar) (d : gmap (list Z) R) : ncvar :=
  {| v_dtype := v_dtype v; v_dimensions := v_dimensions v;
     v_collective := v_collective v; v_ncattrs := v_ncattrs v;
     v_data := d |}.

(** The index expression [[it, s[0], s[1], ...]]. *)
Definition group_key (it : nat) (s : list (Z * Z)) : list sel :=
  At (Z.of_nat it) :: (py_slice <$> s).

(** The calls of the creation block of [_write_group]. *)
Definition group_creation_calls (handles : gmap string string)
    (name : string) (dt : ascii) (dims : list string) : list call :=
  if decide (name ∈ dom handles) then []
  else [c_createVariable name dt dims; c_set_collective name true].

(** The entries of [s] on the axes that [slices] leaves ranged:
    [np.take(s, sp)]. *)
Fixpoint select_ranged {A} (slices : list slice_entry) (s : list A) : list A :=
  match slices, s with
  | Whole :: slices', r :: s' => r :: select_ranged slices' s'
  | Fixed _ :: slices', _ :: s' => select_ranged slices' s'
  | _, _ => []
  end.

(** The extent of a local range. *)
Definition extent (r : Z * Z) : nat := Z.to_nat (r.2 - r.1).

(** The writer [self] agrees with the writer [self0] that construction
    left: same decomposition, dtype and dimension list, same dimensions in
    the file; every cached name refers to the variable of that name, which
    was made after construction, over the time axis first and with the
    dtype of the writer; the file has no other variable than these and the
    ones of construction, and the latter are as they were, the time
    variable apart. *)
Definition cache_ok (self0 self : NCFile) : Prop :=
  self_T self = self_T self0
  ∧ self_dtype self = self_dtype self0
  ∧ self_dims self = self_dims self0
  ∧ self_nc_t self = Some "time"
  ∧ dimensions (self_f self) = dimensions (self_f self0)
  ∧ head (default [] (self_dims self0)) = Some "time"
  ∧ is_Some (variables (self_f self0) !! "time")
  ∧ is_Some (variables (self_f self) !! "time")
  ∧ ∃ handles,
      self_handles self = Some handles
      ∧ (∀ name h, handles !! name = Some h →
           h = name ∧ variables (self_f self0) !! name = None
           ∧ ∃ v, variables (self_f self) !! name = Some v
                  ∧ head (v_dimensions v) = Some "time"
                  ∧ v_dtype v = self_dtype self0)
      ∧ (∀ name, handles !! name = None →
           variables (self_f self0) !! name = None →
           variables (self_f self) !! name = None)
      ∧ (∀ name v, name ≠ "time" →
           variables (self_f self0) !! name = Some v →
           variables (self_f self) !! name = Some v).

(** A method body that keeps a property of the writer, whatever its
    outcome. *)
Definition preserves {A} (I : NCFile → Prop) (m : M A) : Prop :=
  ∀ self, I self → I (m self).1.

(** A domain of explicit coordinates for the shape (8,8). *)
Definition explicit_domain : list domain_entry :=
  [coords (INR <$> seq 0 8); coords (INR <$> seq 10 8)].

(** Two calls of [write]; the second has a field named like an axis. *)
Definition two_writes : list (Z * list (string * field)) :=
  [(10%Z, [("u", FullBlock (block 4 8))]);
   (20%Z, [("x", FullBlock (block 4 8));
           ("u", SlicedBlock [Fixed 2; Whole] (block 4 8))])].

(** The integers a floating dtype holds exactly: up to [2^24] in single
    precision (['f']), up to [2^53] in double precision. *)
Definition exact_int (dt : ascii) : Z :=
  if decide (dt = "f"%char) then (2 ^ 24)%Z else (2 ^ 53)%Z.

(** A step value that the time variable stores as it is. *)
Definition exact_step (dt : ascii) (step : Z) : Prop :=
  (Z.abs step ≤ exact_int dt)%Z.

(** * Properties *)

(** ** The slice mapper *)

Lemma get_local_slices_length slices s :
  length (_get_local_slices slices s).1 = length slices.
Proof.
  revert s. induction slices as [|[k|] slices IH]; intros [|[start stop] s];
    simpl; try done.
  - case_decide; simpl; by rewrite IH.
  - by rewrite IH.
Qed.

(** Localising an entry never changes its kind. *)
Lemma get_local_slices_kinds slices s :
  isinstance_slice <$> (_get_local_slices slices s).1
  = isinstance_slice <$> slices.
Proof.
  revert s. induction slices as [|[k|] slices IH]; intros [|[start stop] s];
    simpl; try done.
  - case_decide; simpl; by rewrite IH.
  - by rewrite IH.
Qed.

Lemma get_local_slices_in_range slices s i k start stop :
  slices !! i = Some (Fixed k) → s !! i = Some (start, stop) →
  (start ≤ k < stop)%Z →
  (_get_local_slices slices s).1 !! i = Some (Fixed (k - start)).
Proof.
  revert s i.
  induction slices as [|e slices IH]; intros [|[a b] s] [|i] Hsl Hs Hin;
    simplify_eq/=.
  - by rewrite decide_True.
  - destruct e as [k'|]; [case_decide|]; simpl; eauto.
Qed.

Lemma get_local_slices_outside slices s i k start stop :
  slices !! i = Some (Fixed k) → s !! i = Some (start, stop) →
  ¬ (start ≤ k < stop)%Z →
  (_get_local_slices slices s).2 = false.
Proof.
  revert s i.
  induction slices as [|e slices IH]; intros [|[a b] s] [|i] Hsl Hs Hout;
    simplify_eq/=.
  - by rewrite decide_False.
  - destruct e as [k'|]; [case_decide|]; simpl; eauto.
Qed.

(** [inside] is true exactly when every fixed axis is in the local
    range. *)
Lemma get_local_slices_inside (slices : list slice_entry) (s : list (Z * Z)) :
  (length slices ≤ length s)%nat →
  (_get_local_slices slices s).2 = true ↔
  ∀ i k start stop, slices !! i = Some (Fixed k) →
    s !! i = Some (start, stop) → (start ≤ k < stop)%Z.
Proof.
  revert s. induction slices as [|e slices IH]; intros [|[a b] s] Hlen;
    simpl in *; try lia.
  - split; [by intros _ [|?] | done].
  - split; [by intros _ [|?] | done].
  - specialize (IH s ltac:(lia)).
    destruct e as [k'|]; [destruct (decide (a ≤ k' < b)%Z) as [Hin|Hout]|];
      simpl.
    + rewrite IH. split.
      * intros Hall [|i] ? ? ? ? ?; simplify_eq/=; eauto.
      * intros Hall i ? ? ? ? ?. by apply (Hall (S i)).
    + split; [done|]. intros Hall. destruct Hout. by apply (Hall 0%nat).
    + rewrite IH. split.
      * intros Hall [|i] ? ? ? ? ?; simplify_eq/=; eauto.
      * intros Hall i ? ? ? ? ?. by apply (Hall (S i)).
Qed.

(** C3.  A fixed index [k] on axis [i] becomes the local offset
    [k - local_start[i]] when [local_start[i] <= k < local_stop[i]], and
    otherwise makes [inside] false.  For the global shape (8,8) split by
    rows between two workers, the specification (2, whole) is inside on
    worker 0 with local offset 2, and not inside on worker 1. *)
Theorem fixed_index_local_offset :
  (∀ slices s i k start stop,
     slices !! i = Some (Fixed k) → s !! i = Some (start, stop) →
     ((start ≤ k < stop)%Z →
      (_get_local_slices slices s).1 !! i = Some (Fixed (k - start))) ∧
     (¬ (start ≤ k < stop)%Z → (_get_local_slices slices s).2 = false))
  ∧ _get_local_slices [Fixed 2; Whole] [(0, 4); (0, 8)]%Z
    = ([Fixed 2; Whole], true)
  ∧ (_get_local_slices [Fixed 2; Whole] [(4, 8); (0, 8)]%Z).2 = false.
Proof.
  split; [|done].
  intros slices s i k start stop Hsl Hs. split; intros Hk.
  - by eapply get_local_slices_in_range.
  - by eapply get_local_slices_outside.
Qed.

Lemma fixed_index_local_offset_witness :
  (_get_local_slices [Fixed 5; Whole] [(4, 8); (0, 8)]%Z).1 !! 0%nat
  = Some (Fixed 1).
Proof.
  exact (proj1 (proj1 fixed_index_local_offset
                  [Fixed 5; Whole] [(4, 8); (0, 8)]%Z 0%nat 5%Z 4%Z 8%Z
                  eq_refl eq_refl) ltac:(lia)).
Defined.

(** ** Running a method body *)

Arguments createVariable : simpl never.
Arguments setitem : simpl never.
Arguments getitem : simpl never.
Arguments nd_getitem : simpl never.
Arguments _get_local_slices : simpl never.
Arguments _get_slice_name : simpl never.
Arguments str_list : simpl never.

Ltac run :=
  repeat (progress (unfold mbind, M_bind, mret, M_ret, gets, getattr, lift,
                      raise, on_f, try_f, modify, put_handle, get_handle,
                      index, np_take, var_size, from_option; simpl)).

Lemma createVariable_free name dt dims ds :
  variables ds !! name = None →
  createVariable name dt dims ds
  = Ok (log (c_createVariable name dt dims)
          (set_variables
             (<[name := {| v_dtype := dt; v_dimensions := dims;
                           v_collective := false; v_ncattrs := [];
                           v_data := ∅ |}]> (variables ds)) ds)).
Proof. intros H. unfold createVariable. by rewrite H. Qed.

(** ** The full-field write *)

(** C10.  On a decomposition whose dimensionality is neither 2 nor 3 the
    full-field write raises [NotImplementedError], after the variable has
    been created and cached (when it was not cached yet): no data is
    written and the file is not flushed. *)
Theorem write_group_not_implemented self name u it handles dims :
  self_handles self = Some handles →
  self_dims self = Some dims →
  (name ∉ dom handles → variables (self_f self) !! name = None) →
  ndim (self_T self) ≠ 2%nat → ndim (self_T self) ≠ 3%nat →
  ∃ self',
    _write_group name u it self = (self', Raise NotImplementedError)
    ∧ (∃ handles', self_handles self' = Some handles' ∧ name ∈ dom handles')
    ∧ (name ∉ dom handles →
       self_handles self' = Some (<[name := name]> handles)
       ∧ is_Some (variables (self_f self') !! name))
    ∧ calls (self_f self')
      = calls (self_f self)
        ++ (if decide (name ∈ dom handles) then []
            else [c_createVariable name (self_dtype self) dims;
                  c_set_collective name true]).
Proof.
  intros Hh Hd Hfree H2 H3. unfold _write_group. run. rewrite Hh. simpl.
  destruct (decide (name ∈ dom handles)) as [Hin|Hout]; run.
  - rewrite !decide_False by done. simpl.
    eexists. split; [done|]. rewrite Hh, app_nil_r.
    split; [eauto|]. split; [done|done].
  - rewrite Hd. simpl. rewrite createVariable_free by auto. simpl.
    rewrite Hh. simpl. rewrite lookup_insert_eq. simpl.
    rewrite !decide_False by done. simpl.
    eexists. split; [done|]. simpl.
    split; [eexists; split; [done|set_solver]|].
    split; [|by rewrite <-app_assoc].
    intros _. split; [done|].
    rewrite lookup_alter_eq, lookup_insert_eq. by eexists.
Qed.

(** ** Cells of a region *)

Lemma NoDup_sel_indices s : NoDup (sel_indices s).
Proof. destruct s; simpl; [apply NoDup_singleton | apply NoDup_seqZ]. Qed.

Lemma NoDup_region key : NoDup (region key).
Proof.
  induction key as [|s key IH]; simpl; [apply NoDup_singleton|].
  apply NoDup_bind; [| |apply NoDup_sel_indices].
  - intros i j k _ _ Hi Hj.
    apply list_elem_of_fmap in Hi as (?&->&_).
    apply list_elem_of_fmap in Hj as (?&?&_). by simplify_eq.
  - intros i _. apply NoDup_fmap; [|done]. by intros ?? [=].
Qed.

Lemma length_region_cons s key :
  length (region (s :: key))
  = (length (sel_indices s) * length (region key))%nat.
Proof.
  simpl. induction (sel_indices s) as [|i l IH]; simpl; [done|].
  rewrite length_app, length_fmap. f_equal. exact IH.
Qed.

Lemma length_region_slices (it : Z) (s : list (Z * Z)) :
  length (region (At it :: (py_slice <$> s)))
  = prod_list (key_shape (py_slice <$> s)).
Proof.
  rewrite length_region_cons. simpl. rewrite Nat.add_0_r.
  induction s as [|[a b] s IH]; [done|].
  rewrite fmap_cons, length_region_cons. simpl.
  by rewrite length_seqZ, IH.
Qed.

Lemma lookup_stored_cells (keys : list (list Z)) (data : list R) m :
  NoDup keys → length data = length keys →
  (λ k, default fill_value (store_cells keys data m !! k)) <$> keys = data.
Proof.
  unfold store_cells. revert data.
  induction keys as [|k keys IH]; intros [|x data] Hnd Hlen;
    simplify_eq/=; [done|].
  apply NoDup_cons in Hnd as [Hk Hnd]. f_equal.
  - by rewrite lookup_union_l', lookup_insert_eq; [|rewrite lookup_insert_eq].
  - etrans; [|exact (IH data Hnd Hlen)].
    apply list_fmap_ext. intros i k' Hk'.
    assert (k ≠ k') by (intros ->; apply Hk; by eapply list_elem_of_lookup_2).
    destruct ((list_to_map (zip keys data) : gmap (list Z) R) !! k')
      as [y|] eqn:Hy.
    + erewrite !lookup_union_Some_l; [done|done|].
      by rewrite lookup_insert_ne.
    + rewrite !lookup_union_r; [done|done|]. by rewrite lookup_insert_ne.
Qed.

Arguments region : simpl never.
Arguments key_shape : simpl never.
Arguments time_extent : simpl never.

Lemma setitem_ok var key u ds v :
  variables ds !! var = Some v →
  nd_shape u = key_shape key →
  length (nd_data u) = length (region key) →
  length key = length (v_dimensions v) →
  setitem var key u ds
  = Ok (log (c_setitem var key (nd_data u))
          {| dimensions := dimensions ds;
             variables :=
               <[var := {| v_dtype := v_dtype v;
                           v_dimensions := v_dimensions v;
                           v_collective := v_collective v;
                           v_ncattrs := v_ncattrs v;
                           v_data := store_cells (region key) (nd_data u)
                                       (v_data v) |}]> (variables ds);
             time_len := time_len ds `max` time_extent (v_dimensions v) key;
             calls := calls ds |}).
Proof.
  intros Hv Hsh Hlen Hrank. unfold setitem. rewrite Hv.
  by rewrite decide_True.
Qed.

Lemma time_extent_time dims (it : nat) key :
  head dims = Some "time" →
  time_extent dims (At (Z.of_nat it) :: key) = S it.
Proof.
  destruct dims as [|d dims]; intros [=->]. unfold time_extent.
  case_decide; [lia|done].
Qed.

(** What [read] returns once the block [u] is stored at step [it] over
    the local ranges [s]. *)
Lemma getitem_stored name (it : nat) (s : list (Z * Z)) u ds v m :
  variables ds !! name = Some v →
  length (v_dimensions v) = S (length s) →
  (it < time_len ds)%nat →
  nd_shape u = key_shape (py_slice <$> s) →
  length (nd_data u) = prod_list (nd_shape u) →
  v_data v = store_cells (region (At (Z.of_nat it) :: (py_slice <$> s)))
               (nd_data u) m →
  getitem name it (py_slice <$> s) ds = Ok u.
Proof.
  intros Hv Hrank Hit Hsh Hlen Hdata. unfold getitem.
  rewrite Hv, !decide_True by (by rewrite ?length_fmap). f_equal.
  destruct u as [sh d]; cbn [nd_shape nd_data] in *. rewrite Hsh. f_equal.
  rewrite Hdata. apply lookup_stored_cells; [apply NoDup_region|].
  by rewrite length_region_slices, Hlen, Hsh.
Qed.


(** ** The sliced write *)

Lemma nonzero_from_bound i bs p :
  p ∈ nonzero_from i bs → (i ≤ p < i + length bs)%nat.
Proof.
  revert i. induction bs as [|b bs IH]; intros i; simpl.
  - by intros ?%elem_of_nil.
  - rewrite elem_of_app. intros [Hp|Hp].
    + destruct b; [apply list_elem_of_singleton in Hp; lia|].
      by apply elem_of_nil in Hp.
    + apply IH in Hp. lia.
Qed.

Lemma take_ranged {A} (l : list A) slices (off : nat) :
  (length slices + off ≤ length l)%nat →
  is_Some (mapM (λ i, l !! i) ((λ p, p + off)%nat <$> ranged slices)).
Proof.
  intros Hlen. apply mapM_is_Some, Forall_fmap, Forall_forall.
  intros p Hp%nonzero_from_bound. rewrite length_fmap in Hp.
  apply lookup_lt_is_Some. simpl. lia.
Qed.

(** Every outcome of the creation block. *)
Lemma create_slice_variable_cases fname sdims loc self self' r :
  create_slice_variable fname sdims loc self = (self', r) →
  (self_handles self = None ∧ self' = self ∧ r = Raise AttributeError)
  ∨ ∃ handles, self_handles self = Some handles ∧
      ((fname ∈ dom handles ∧ self' = self ∧ r = Ok tt)
       ∨ ((fname ∉ dom handles) ∧ is_Some (variables (self_f self) !! fname)
          ∧ self' = self ∧ r = Raise RuntimeError)
       ∨ ((fname ∉ dom handles) ∧ variables (self_f self) !! fname = None
          ∧ self' = slice_created handles fname sdims (str_list loc) self
          ∧ r = Ok tt)).
Proof.
  unfold create_slice_variable. run.
  destruct (self_handles self) as [handles|] eqn:Hh; simpl;
    [|intros [= <- <-]; by left].
  intros H. right. exists handles. split; [done|].
  destruct (decide (fname ∈ dom handles)) as [Hin|Hout].
  { left. by simplify_eq. }
  right. revert H. run. unfold createVariable.
  destruct (variables (self_f self) !! fname) as [v|] eqn:Hv; simpl.
  { intros [= <- <-]. left. eauto. }
  rewrite Hh. simpl. rewrite lookup_insert_eq. simpl.
  intros [= <- <-]. right. done.
Qed.

(** Every outcome of the data block: nothing happens, an exception is
    raised before the store is touched, or one assignment is made. *)
Lemma write_slice_data_cases fname it sf u sl self self' r :
  write_slice_data fname it sf u sl self = (self', r) →
  (self' = self ∧ (r = Ok tt ∧ ¬ (1 ≤ length sf ≤ 3)%nat ∨ ∃ e, r = Raise e))
  ∨ ∃ handles h v ds',
      self_handles self = Some handles ∧ handles !! fname = Some h
      ∧ nd_getitem u sl = Ok v
      ∧ setitem h (At (Z.of_nat it) :: (py_slice <$> sf)) v (self_f self)
        = Ok ds'
      ∧ self' = set_f ds' self ∧ r = Ok tt.
Proof.
  unfold write_slice_data.
  destruct sf as [|sf0 [|sf1 [|sf2 [|sf3 sf]]]]; run;
    try (intros [= <- <-]; left; split; [done|left; split; [done|simpl; lia]]).
  all: destruct (nd_getitem u sl) as [v|e] eqn:Hv; simpl;
    [|intros [= <- <-]; left; eauto].
  all: destruct (self_handles self) as [handles|] eqn:Hh; simpl;
    [|intros [= <- <-]; left; eauto].
  all: destruct (handles !! fname) as [h|] eqn:Hf; simpl;
    [|intros [= <- <-]; left; eauto].
  all: match goal with
       | |- context [setitem ?h ?k ?v ?f] =>
           destruct (setitem h k v f) as [ds'|e] eqn:Hset
       end; intros [= <- <-]; [right|left; eauto].
  all: by exists handles, h, v, ds'.
Qed.

(** ** Inverting a method body *)

Lemma bind_inv {A B} (m : M A) (k : A → M B) self self' r :
  (m ≫= k) self = (self', r) →
  (∃ self1 a, m self = (self1, Ok a) ∧ k a self1 = (self', r))
  ∨ (∃ e, m self = (self', Raise e) ∧ r = Raise e).
Proof.
  unfold mbind, M_bind. destruct (m self) as [self1 [a|e]]; intros H.
  - left. by exists self1, a.
  - right. exists e. by simplify_eq.
Qed.

Tactic Notation "inv_bind" hyp(H) "as" ident(self1) ident(a) ident(H1) :=
  let e := fresh "e" in
  apply bind_inv in H as [(self1 & a & H1 & H) | (e & H1 & ->)].

Ltac inv_prim H :=
  unfold index, np_take, var_size, getattr in H;
  unfold gets, lift, raise, on_f, try_f, modify, mret, M_ret, from_option in H;
  simplify_eq/=.

Lemma createVariable_inv name dt dims ds ds' :
  createVariable name dt dims ds = Ok ds' →
  variables ds !! name = None
  ∧ ds' = log (c_createVariable name dt dims)
            (set_variables
               (<[name := {| v_dtype := dt; v_dimensions := dims;
                             v_collective := false; v_ncattrs := [];
                             v_data := ∅ |}]> (variables ds)) ds).
Proof.
  unfold createVariable. destruct (variables ds !! name); [done|].
  by intros [= <-].
Qed.

Lemma setitem_calls var key u ds ds' :
  setitem var key u ds = Ok ds' →
  calls ds' = calls ds ++ [c_setitem var key (nd_data u)].
Proof.
  unfold setitem. destruct (variables ds !! var); [|done].
  case_decide; [|done]. by intros [= <-].
Qed.

Ltac inv_opt E :=
  match goal with
  | H : match ?o with Some _ => _ | None => _ end = _ |- _ =>
      destruct o eqn:E; simplify_eq/=
  end.

(** Every outcome of a sliced write: an exception before the store is
    touched, or the creation block followed, on an inside worker, by the
    data block, and by the flush when nothing was raised. *)
Lemma write_slice_step_cases name it slices u self self' r :
  _write_slice_step name it slices u self = (self', r) →
  let fname := slice_fname name slices in
  let loc := (_get_local_slices slices (local_slice (self_T self))).1 in
  let inside := (_get_local_slices slices (local_slice (self_T self))).2 in
  (self' = self ∧ ∃ e, r = Raise e)
  ∨ ∃ dims sf sd self1,
      self_dims self = Some dims
      ∧ mapM (λ i, local_slice (self_T self) !! i) (ranged slices) = Some sf
      ∧ mapM (λ i, dims !! i) ((λ p, p + 1)%nat <$> ranged slices) = Some sd
      ∧ create_slice_variable fname ("time" :: sd) loc self = (self1, Ok tt)
      ∧ ((inside = false ∧ self' = set_f (sync (self_f self1)) self1
          ∧ r = Ok tt)
         ∨ (inside = true ∧ ∃ self2 r2,
              write_slice_data fname it sf u loc self1 = (self2, r2)
              ∧ ((r2 = Ok tt ∧ self' = set_f (sync (self_f self2)) self2
                  ∧ r = Ok tt)
                 ∨ (self' = self2 ∧ r = r2 ∧ ∃ e, r2 = Raise e)))).
Proof.
  unfold _write_slice_step, slice_fname, ranged. intros H.
  inv_bind H as st0 s Hs; inv_prim Hs.
  rewrite <-(get_local_slices_kinds slices (local_slice (self_T st0))).
  destruct (_get_local_slices slices (local_slice (self_T st0)))
    as [loc inside]; simpl.
  inv_bind H as st1 sf Hsf; inv_prim Hsf; [|left; eauto]. inv_opt Esf.
  inv_bind H as st2 dims Hd; inv_prim Hd; [|left; eauto]. inv_opt Ed.
  inv_bind H as st3 sd Hsd; inv_prim Hsd; [|left; eauto]. inv_opt Esd.
  inv_bind H as st4 x Hc.
  2:{ apply create_slice_variable_cases in Hc as [(?&?&?)|(h&?&Hc')];
        [left; eauto|].
      destruct Hc' as [(?&?&?)|[(?&?&?&?)|(?&?&?&?)]]; simplify_eq.
      left; eauto. }
  destruct x. right. exists dims, sf, sd, st4. do 4 (split; [done|]).
  inv_bind H as st5 y Hw.
  - inv_prim H. destruct y, inside.
    + right. split; [done|]. eexists _, _. split; [done|]. by left.
    + left. by inv_prim Hw.
  - destruct inside; [|by inv_prim Hw].
    right. split; [done|]. eexists _, _. split; [done|]. right. eauto.
Qed.

Lemma new_calls_app self self' cs :
  calls (self_f self') = calls (self_f self) ++ cs → new_calls self self' = cs.
Proof. unfold new_calls. intros ->. by rewrite drop_app_length. Qed.

Lemma slice_created_calls handles fname sdims attr self :
  calls (self_f (slice_created handles fname sdims attr self))
  = calls (self_f self)
    ++ [c_createVariable fname (self_dtype self) sdims;
        c_set_collective fname true;
        c_setncattr_string fname "slices" attr].
Proof. simpl. by rewrite <-!app_assoc. Qed.

(** The creation block, when it completes: its calls and the cache. *)
Lemma create_slice_variable_ok fname sdims loc self self' handles :
  self_handles self = Some handles →
  create_slice_variable fname sdims loc self = (self', Ok tt) →
  calls (self_f self')
  = calls (self_f self)
    ++ creation_calls handles fname (self_dtype self) sdims (str_list loc)
  ∧ self_handles self'
    = Some (if decide (fname ∈ dom handles) then handles
            else <[fname := fname]> handles)
  ∧ self_T self' = self_T self ∧ self_dims self' = self_dims self
  ∧ self_dtype self' = self_dtype self
  ∧ ∀ var v, variables (self_f self) !! var = Some v →
      ∃ v', variables (self_f self') !! var = Some v'
            ∧ v_data v' = v_data v.
Proof.
  intros Hh Hc. unfold creation_calls.
  apply create_slice_variable_cases in Hc as [(?&?&?)|(h&Hh'&Hc)];
    [congruence|].
  assert (h = handles) as -> by congruence.
  destruct Hc as [(Hin&->&_)|[(?&?&?&?)|(Hout&Hfree&->&_)]]; [|done|].
  - rewrite !decide_True by done. rewrite app_nil_r. eauto 10.
  - rewrite !decide_False by done. rewrite slice_created_calls.
    do 5 (split; [done|]). intros var v Hv. simpl.
    assert (var ≠ fname) by congruence.
    exists v. by rewrite !lookup_alter_ne, lookup_insert_ne.
Qed.

(** The creation block completes on a name that is cached or free. *)
Lemma create_slice_variable_runs fname sdims loc self handles :
  self_handles self = Some handles →
  (fname ∉ dom handles → variables (self_f self) !! fname = None) →
  ∃ self', create_slice_variable fname sdims loc self = (self', Ok tt).
Proof.
  intros Hh Hfree. unfold create_slice_variable. run. rewrite Hh. simpl.
  destruct (decide (fname ∈ dom handles)) as [Hin|Hout]; [by eexists|].
  run. rewrite createVariable_free by auto. run. rewrite Hh. run.
  rewrite lookup_insert_eq. run. by eexists.
Qed.

(** The sliced write once its lookups succeed: creation block, data
    block on an inside worker, flush. *)
Lemma write_slice_step_unfold name it slices u self dims sf sd :
  self_dims self = Some dims →
  mapM (λ i, local_slice (self_T self) !! i) (ranged slices) = Some sf →
  mapM (λ i, dims !! i) ((λ p, p + 1)%nat <$> ranged slices) = Some sd →
  let r := _get_local_slices slices (local_slice (self_T self)) in
  _write_slice_step name it slices u self
  = (create_slice_variable (slice_fname name slices) ("time" :: sd) r.1;;
     (if r.2 then write_slice_data (slice_fname name slices) it sf u r.1
      else mret tt);;
     on_f sync) self.
Proof.
  intros Hd Hsf Hsd. unfold _write_slice_step, slice_fname, ranged in *.
  pose proof (get_local_slices_kinds slices (local_slice (self_T self))) as Hk.
  unfold mbind at 1, M_bind at 1, gets at 1. simpl.
  destruct (_get_local_slices slices (local_slice (self_T self)))
    as [loc inside]; simpl in *.
  unfold mbind at 1, M_bind at 1, np_take at 1, lift at 1. rewrite Hk, Hsf.
  simpl.
  unfold mbind at 1, M_bind at 1, getattr at 1. rewrite Hd. simpl.
  unfold mbind at 1, M_bind at 1, np_take at 1, lift at 1. rewrite Hsd.
  done.
Qed.

(** A sliced write that completes: its calls, in order, and the cache. *)
Lemma write_slice_step_ok name it slices u self self' handles dims :
  self_handles self = Some handles →
  self_dims self = Some dims →
  _write_slice_step name it slices u self = (self', Ok tt) →
  let fname := slice_fname name slices in
  let r := _get_local_slices slices (local_slice (self_T self)) in
  ∃ sd data,
    mapM (λ i, dims !! i) ((λ p, p + 1)%nat <$> ranged slices) = Some sd
    ∧ calls (self_f self')
      = calls (self_f self)
        ++ creation_calls handles fname (self_dtype self) ("time" :: sd)
             (str_list r.1)
        ++ data ++ [c_sync]
    ∧ (data = [] ∨ (r.2 = true ∧ ∃ h key v, data = [c_setitem h key v]))
    ∧ self_handles self'
      = Some (if decide (fname ∈ dom handles) then handles
              else <[fname := fname]> handles).
Proof.
  intros Hh Hd Hstep. simpl.
  apply write_slice_step_cases in Hstep
    as [(_&?&?)|(dims'&sf&sd&self1&Hd'&Hsf&Hsd&Hc&Hrest)]; [done|].
  assert (dims' = dims) as -> by congruence.
  destruct (create_slice_variable_ok _ _ _ _ _ _ Hh Hc)
    as (Hcalls & Hh1 & _).
  exists sd.
  destruct Hrest as [(Hout&->&_)|(Hin&self2&r2&Hw&Hrest)].
  - exists []. simpl. rewrite Hcalls, <-app_assoc. eauto.
  - destruct Hrest as [(->&->&_)|(_&?&?&?)]; [|congruence].
    apply write_slice_data_cases in Hw
      as [(->&_)|(hs&h&v&ds'&Hh2&Hf&Hv&Hset&->&_)].
    + exists []. simpl. rewrite Hcalls, <-app_assoc. eauto.
    + eexists [_]. simpl. rewrite (setitem_calls _ _ _ _ _ Hset), Hcalls.
      rewrite <-!app_assoc. simpl. split; [done|]. split; [done|].
      split; [|done]. right. eauto 10.
Qed.

Lemma take_ranged_0 {A} (l : list A) slices :
  (length slices ≤ length l)%nat →
  is_Some (mapM (λ i, l !! i) (ranged slices)).
Proof.
  intros Hlen. apply mapM_is_Some, Forall_forall.
  intros p Hp%nonzero_from_bound. rewrite length_fmap in Hp.
  apply lookup_lt_is_Some. lia.
Qed.

Lemma metadata_creation_calls handles fname dt sdims attr attr' :
  omap metadata_part (creation_calls handles fname dt sdims attr)
  = omap metadata_part (creation_calls handles fname dt sdims attr').
Proof. unfold creation_calls. by case_decide. Qed.

Lemma creation_calls_no_setitem handles fname dt sdims attr c :
  c ∈ creation_calls handles fname dt sdims attr → is_setitem c = false.
Proof.
  unfold creation_calls. case_decide; [by intros ?%elem_of_nil|].
  rewrite !elem_of_cons. intros [->|[->|[->|?%elem_of_nil]]]; done.
Qed.


Lemma new_calls_refl self : new_calls self self = [].
Proof. unfold new_calls. by rewrite drop_all. Qed.

(** In every outcome of a sliced write, the variables it creates bear the
    name built from the field name and the slice specification. *)
Lemma write_slice_step_created name it slices u self self' r n dt d :
  _write_slice_step name it slices u self = (self', r) →
  c_createVariable n dt d ∈ new_calls self self' →
  n = slice_fname name slices.
Proof.
  intros Hstep Hin.
  apply write_slice_step_cases in Hstep
    as [(->&_)|(dims&sf&sd&self1&Hd&Hsf&Hsd&Hc&Hrest)].
  { rewrite new_calls_refl in Hin. by apply elem_of_nil in Hin. }
  pose proof Hc as Hc'.
  apply create_slice_variable_cases in Hc' as [(_&_&?)|(handles&Hh&_)];
    [done|].
  destruct (create_slice_variable_ok _ _ _ _ _ _ Hh Hc) as (Hcalls & _).
  assert (∃ rest, calls (self_f self')
                  = calls (self_f self)
                    ++ creation_calls handles (slice_fname name slices)
                         (self_dtype self) ("time" :: sd)
                         (str_list (_get_local_slices slices
                                      (local_slice (self_T self))).1)
                    ++ rest
                  ∧ ∀ c, c ∈ rest → c = c_sync ∨ is_setitem c = true)
    as (rest & Hcalls' & Hrest').
  { destruct Hrest as [(_&->&_)|(_&self2&r2&Hw&Hrest)].
    - exists [c_sync]. simpl. rewrite Hcalls, <-app_assoc. split; [done|].
      intros c ->%list_elem_of_singleton. by left.
    - apply write_slice_data_cases in Hw
        as [(->&_)|(hs&h&v&ds'&_&_&_&Hset&->&_)].
      + destruct Hrest as [(_&->&_)|(->&_)].
        * exists [c_sync]. simpl. rewrite Hcalls, <-app_assoc.
          split; [done|]. intros c ->%list_elem_of_singleton. by left.
        * exists []. rewrite Hcalls, app_nil_r. split; [done|].
          by intros c ?%elem_of_nil.
      + destruct Hrest as [(_&->&_)|(->&_)].
        * eexists [_; _]. simpl.
          rewrite (setitem_calls _ _ _ _ _ Hset), Hcalls, <-!app_assoc.
          split; [done|]. intros c Hc0.
          apply elem_of_cons in Hc0 as [->|Hc0]; [by right|].
          apply list_elem_of_singleton in Hc0 as ->. by left.
        * eexists [_]. simpl.
          rewrite (setitem_calls _ _ _ _ _ Hset), Hcalls, <-!app_assoc.
          split; [done|].
          intros c ->%list_elem_of_singleton. by right. }
  rewrite (new_calls_app _ _ _ Hcalls') in Hin.
  apply elem_of_app in Hin as [Hin|Hin].
  - unfold creation_calls in Hin. case_decide; [by apply elem_of_nil in Hin|].
    apply elem_of_cons in Hin as [[= -> _ _]|Hin]; [done|].
    apply elem_of_cons in Hin as [?|Hin]; [done|].
    apply elem_of_cons in Hin as [?|Hin]; [done|].
    by apply elem_of_nil in Hin.
  - by destruct (Hrest' _ Hin) as [?|?].
Qed.

(** C9.  The name of the variable of a sliced write is a function of the
    field name and of the slice specification alone: two sliced writes of
    the same field with the same specification, on any two workers, in
    any two states of the writer, create their variable under the same
    name. *)
Theorem slice_name_deterministic
    name slices self1 self2 it1 it2 u1 u2 n1 n2 dt1 dt2 d1 d2 :
  c_createVariable n1 dt1 d1
    ∈ new_calls self1 (_write_slice_step name it1 slices u1 self1).1 →
  c_createVariable n2 dt2 d2
    ∈ new_calls self2 (_write_slice_step name it2 slices u2 self2).1 →
  n1 = n2 ∧ n1 = String.concat "_" [name; _get_slice_name slices].
Proof.
  intros H1 H2.
  destruct (_write_slice_step name it1 slices u1 self1) as [s1 r1] eqn:E1.
  destruct (_write_slice_step name it2 slices u2 self2) as [s2 r2] eqn:E2.
  apply (write_slice_step_created _ _ _ _ _ _ _ _ _ _ E1) in H1.
  apply (write_slice_step_created _ _ _ _ _ _ _ _ _ _ E2) in H2.
  by subst.
Qed.

(** ** Construction: the coordinate axes *)

Lemma region_range a b : region [Range a b] = (λ j, [j]) <$> seqZ a (b - a).
Proof.
  unfold region. simpl. induction (seqZ a (b - a)) as [|j l IH]; [done|].
  simpl. by f_equal.
Qed.

Lemma length_region_range (n : nat) :
  length (region [Range 0 (Z.of_nat n)]) = n.
Proof. rewrite region_range, length_fmap, length_seqZ. lia. Qed.

Lemma time_extent_range dims a b key :
  time_extent dims (Range a b :: key) = 0%nat.
Proof. unfold time_extent. by destruct dims. Qed.

Lemma key_shape_range (n : nat) : key_shape [Range 0 (Z.of_nat n)] = [n].
Proof. unfold key_shape. simpl. f_equal. lia. Qed.

(** The cell of index [j] after a whole axis has been assigned. *)
Lemma lookup_stored_axis (data : list R) (j : nat) m :
  store_cells (region [Range 0 (Z.of_nat (length data))]) data m
    !! [Z.of_nat j]
  = match data !! j with
    | Some x => Some x
    | None => m !! [Z.of_nat j]
    end.
Proof.
  unfold store_cells. rewrite region_range, Z.sub_0_r.
  destruct (data !! j) as [x|] eqn:Hj.
  - apply lookup_union_Some_l, elem_of_list_to_map_1.
    + rewrite fst_zip by (rewrite length_fmap, length_seqZ; lia).
      apply NoDup_fmap; [by intros ?? [=]|apply NoDup_seqZ].
    + apply (list_elem_of_lookup_2 _ j), lookup_zip_with_Some.
      exists [Z.of_nat j], x. split; [done|]. split; [|done].
      rewrite list_lookup_fmap, lookup_seqZ_lt; [done|].
      apply lookup_lt_Some in Hj. lia.
  - rewrite lookup_union_r; [done|].
    apply not_elem_of_list_to_map_1. rewrite fst_zip
      by (rewrite length_fmap, length_seqZ; lia).
    intros (k&[= <-]&Hk%elem_of_seqZ)%list_elem_of_fmap.
    apply lookup_ge_None in Hj. lia.
Qed.

Lemma xyz_inj i j name : xyz i = Ok name → xyz j = Ok name → i = j.
Proof.
  destruct i as [|[|[|i]]], j as [|[|[|j]]]; simpl; intros; by simplify_eq.
Qed.

Lemma xyz_lt i : (i < 3)%nat → ∃ name, xyz i = Ok name.
Proof. destruct i as [|[|[|i]]]; simpl; eauto; lia. Qed.

Lemma length_arange_2pi n : length (arange_2pi n) = n.
Proof. unfold arange_2pi. by rewrite length_fmap, length_seq. Qed.

Lemma lookup_arange_2pi n j :
  (j < n)%nat → arange_2pi n !! j = Some (INR j * 2 * PI / INR n)%R.
Proof.
  intros Hj. unfold arange_2pi.
  by rewrite list_lookup_fmap, lookup_seq_lt.
Qed.

(** The axis loop on arrays that fit the shape, on at most three axes
    whose names are free: every axis gets its dimension and its
    coordinate variable, and nothing else changes. *)
Lemma create_axes_ok N dt i d st :
  (i + length d ≤ 3)%nat →
  (∀ k di, d !! k = Some di → N !! (i + k)%nat = Some (length di)) →
  (∀ k name, (k < length d)%nat → xyz (i + k) = Ok name →
             variables st.1 !! name = None) →
  ∃ st', create_axes N dt i d st = Ok st'
    ∧ time_len st'.1 = time_len st.1
    ∧ (∃ names, st'.2 = st.2 ++ names)
    ∧ (∀ k di name, d !! k = Some di → xyz (i + k) = Ok name →
         ∃ v, variables st'.1 !! name = Some v
              ∧ v_dimensions v = [name]
              ∧ v_data v
                = store_cells (region [Range 0 (Z.of_nat (length di))]) di ∅)
    ∧ (∀ var, (∀ k, (k < length d)%nat → xyz (i + k) ≠ Ok var) →
         variables st'.1 !! var = variables st.1 !! var).
Proof.
  revert i st. induction d as [|di d IH]; intros i [f dims] Hlen HN Hfree.
  { exists (f, dims). simpl. split; [done|]. split; [done|].
    split; [exists []; by rewrite app_nil_r|]. split; [done|done]. }
  simpl in Hlen. destruct (xyz_lt i ltac:(lia)) as [name Hname].
  pose proof (HN 0%nat di eq_refl) as HNi. rewrite Nat.add_0_r in HNi.
  pose proof (Hfree 0%nat name ltac:(simpl; lia)) as Hfresh.
  rewrite Nat.add_0_r in Hfresh. specialize (Hfresh Hname).
  cbn [create_axes]. rewrite Hname. simpl. rewrite HNi. simpl.
  simpl in Hfresh. rewrite createVariable_free by (by simpl). simpl.
  erewrite setitem_ok;
    [|by simpl; rewrite lookup_insert_eq|by rewrite key_shape_range
     |by simpl; rewrite length_region_range|done].
  simpl.
  match goal with
  | |- context [create_axes N dt (S i) d ?st1] =>
      destruct (IH (S i) st1)
        as (st' & Hrun & Htime & [names Hdims] & Hvars & Hrest)
  end.
  { lia. }
  { intros k dk Hk. replace (S i + k)%nat with (i + S k)%nat by lia.
    by apply (HN (S k)). }
  { intros k nm Hk Hnm. simpl.
    replace (S i + k)%nat with (i + S k)%nat in Hnm by lia.
    rewrite lookup_insert_ne, lookup_insert_ne.
    - apply (Hfree (S k)); [simpl; lia|done].
    - intros ->. pose proof (xyz_inj _ _ _ Hname Hnm). lia.
    - intros ->. pose proof (xyz_inj _ _ _ Hname Hnm). lia. }
  exists st'. split; [done|]. split; [|split; [|split]].
  - rewrite Htime. simpl. rewrite time_extent_range. lia.
  - exists (name :: names). rewrite Hdims. simpl. by rewrite <-app_assoc.
  - intros [|k] dk nm Hk Hnm; simpl in Hk.
    + simplify_eq. rewrite Nat.add_0_r in Hnm.
      assert (nm = name) as -> by congruence.
      rewrite Hrest.
      * simpl. rewrite lookup_insert_eq. eexists. split; [done|]. done.
      * intros k Hk Hk'. pose proof (xyz_inj _ _ _ Hname Hk'). lia.
    + apply (Hvars k); [done|].
      by replace (S i + k)%nat with (i + S k)%nat by lia.
  - intros var Hvar. rewrite Hrest.
    + assert (name ≠ var).
      { intros ->. apply (Hvar 0%nat); [simpl; lia|]. by rewrite Nat.add_0_r. }
      simpl. by rewrite !lookup_insert_ne.
    + intros k Hk. replace (S i + k)%nat with (i + S k)%nat by lia.
      apply Hvar. simpl. lia.
Qed.

Lemma mapM_arange_ok (N : list nat) a len :
  (a + len ≤ length N)%nat →
  mapM (λ i, from_option IndexError (N !! i) ≫= λ n, Ok (arange_2pi n))
       (seq a len)
  = Ok (arange_2pi <$> take len (drop a N)).
Proof.
  revert a. induction len as [|len IH]; intros a Hlen; [done|].
  destruct (lookup_lt_is_Some_2 N a ltac:(lia)) as [n Hn].
  cbn [seq mapM]. rewrite Hn. cbn [from_option].
  unfold mbind at 1, result_bind at 1, rbind at 1.
  rewrite IH by lia. simpl. by rewrite (drop_S _ _ _ Hn).
Qed.

Lemma mapM_arange_long (N : list nat) a len :
  (a ≤ length N < a + len)%nat →
  mapM (λ i, from_option IndexError (N !! i) ≫= λ n, Ok (arange_2pi n))
       (seq a len)
  = Raise IndexError.
Proof.
  revert a. induction len as [|len IH]; intros a Hlen; [lia|].
  cbn [seq mapM]. destruct (N !! a) as [n|] eqn:Hn; cbn [from_option].
  - unfold mbind at 1, result_bind at 1, rbind at 1.
    apply lookup_lt_Some in Hn. by rewrite IH by lia.
  - done.
Qed.

(** Construction in write mode, once the dtype check has passed and
    [domain] is a list with a first entry. *)
Lemma NCFile_init_w disk T domain d0 :
  char_in_fdg (dtype T) = true →
  domain !! 0%nat = Some d0 →
  NCFile_init disk T (Some domain) "w"
  = (if isinstance_ndarray d0 then Ok (values <$> domain)
     else if decide (length (values d0) = 2%nat) then
       mapM (λ i, from_option IndexError (shape T !! i)
                    ≫= λ n, Ok (arange_2pi n))
            (seq 0 (length domain))
     else Raise (AssertionError "len(domain[0]) == 2"))
    ≫= λ d, create_axes (shape T) (dtype T) 0 d (time_schema (dtype T), ["time"])
    ≫= λ st, Ok {| self_f := sync st.1; self_T := T; self_N := shape T;
                   self_dtype := dtype T; self_dims := Some st.2;
                   self_nc_t := Some "time"; self_handles := Some ∅ |}.
Proof.
  intros Hdt Hd0. unfold NCFile_init, Dataset_open. rewrite Hdt. simpl.
  rewrite Hd0. done.
Qed.

(** Writing the axes never changes the time variable. *)
Lemma time_schema_time dt :
  variables (time_schema dt) !! "time"
  = Some {| v_dtype := dt; v_dimensions := ["time"]; v_collective := true;
            v_ncattrs := []; v_data := ∅ |}.
Proof. done. Qed.

Lemma time_schema_free dt name :
  name ≠ "time" → variables (time_schema dt) !! name = None.
Proof.
  intros Hne. simpl. by rewrite lookup_alter_ne, lookup_insert_ne.
Qed.

Lemma xyz_not_time i name : xyz i = Ok name → name ≠ "time".
Proof. destruct i as [|[|[|i]]]; simpl; intros; by simplify_eq. Qed.

(** Construction with a domain of 2-tuples that is no longer than the
    shape, on at most three axes: it completes, and axis [i] holds the
    grid [arange(N[i])*2*pi/N[i]]. *)
Lemma NCFile_init_bounds disk T domain t :
  char_in_fdg (dtype T) = true →
  domain !! 0%nat = Some (bounds t) → length t = 2%nat →
  (length domain ≤ length (shape T))%nat → (length domain ≤ 3)%nat →
  ∃ self,
    NCFile_init disk T (Some domain) "w" = Ok self
    ∧ time_len (self_f self) = 0%nat
    ∧ (∃ names, self_dims self = Some ("time" :: names))
    ∧ self_handles self = Some ∅ ∧ self_nc_t self = Some "time"
    ∧ self_T self = T
    ∧ variables (self_f self) !! "time"
      = Some {| v_dtype := dtype T; v_dimensions := ["time"];
                v_collective := true; v_ncattrs := []; v_data := ∅ |}
    ∧ ∀ i n, (i < length domain)%nat → shape T !! i = Some n →
        ∃ name v, xyz i = Ok name
          ∧ variables (self_f self) !! name = Some v
          ∧ v_dimensions v = [name]
          ∧ v_data v
            = store_cells (region [Range 0 (Z.of_nat n)]) (arange_2pi n) ∅.
Proof.
  intros Hdt Hd0 Ht Hlen H3.
  rewrite (NCFile_init_w _ _ _ _ Hdt Hd0). simpl.
  rewrite decide_True by done. rewrite mapM_arange_ok by (simpl; lia).
  rewrite drop_0.
  set (d := arange_2pi <$> take (length domain) (shape T)).
  assert (Hd : ∀ k di, d !! k = Some di →
                       shape T !! k = Some (length di)).
  { intros k di. unfold d. rewrite list_lookup_fmap.
    destruct (take (length domain) (shape T) !! k) as [n|] eqn:Hk;
      [|done].
    intros [= <-]. rewrite length_arange_2pi.
    by apply lookup_take_Some in Hk as [? _]. }
  assert (Hdl : length d = length domain).
  { unfold d. rewrite length_fmap, length_take. lia. }
  destruct (create_axes_ok (shape T) (dtype T) 0 d
              (time_schema (dtype T), ["time"]))
    as (st' & Hrun & Htime & [names Hdims] & Hvars & Hrest).
  { lia. }
  { done. }
  { intros k name _ Hname. apply time_schema_free.
    by eapply xyz_not_time. }
  unfold mbind at 1, result_bind at 1, rbind at 1. rewrite Hrun.
  eexists. split; [done|]. simpl.
  split; [by rewrite Htime|]. split; [rewrite Hdims; eauto|].
  do 3 (split; [done|]). split.
  { rewrite Hrest; [done|]. intros k _ Hk. by apply xyz_not_time in Hk. }
  intros i n Hi Hn.
  destruct (xyz_lt i ltac:(lia)) as [name Hname].
  assert (Hdi : d !! i = Some (arange_2pi n)).
  { unfold d. by rewrite list_lookup_fmap, lookup_take_lt, Hn. }
  destruct (Hvars i _ name Hdi Hname) as (v & Hv & Hvd & Hdata).
  exists name, v. rewrite length_arange_2pi in Hdata. done.
Qed.

Lemma createVariable_raise name dt dims ds e :
  createVariable name dt dims ds = Raise e → e = RuntimeError.
Proof.
  unfold createVariable. destruct (variables ds !! name); by intros [=].
Qed.

Lemma setitem_raise var key u ds e :
  setitem var key u ds = Raise e → e = IndexError ∨ e = ValueError.
Proof.
  unfold setitem. destruct (variables ds !! var); [|intros [=]; auto].
  case_decide; intros [=]; auto.
Qed.

(** The axis loop raises no assertion error. *)
Lemma create_axes_raise N dt i d st e :
  create_axes N dt i d st = Raise e →
  e ∈ [KeyError; IndexError; RuntimeError; ValueError].
Proof.
  revert i st. induction d as [|di d IH]; intros i st; [done|].
  cbn [create_axes].
  destruct (xyz i) as [name|e1] eqn:Hname; simpl.
  2:{ destruct i as [|[|[|i]]]; simplify_eq/=. intros [= <-]. set_solver. }
  destruct (N !! i) as [n|]; simpl;
    [|intros [= <-]; set_solver].
  destruct (createVariable name dt [name] _) as [f1|e1] eqn:Hc; simpl.
  2:{ intros [= <-]. apply createVariable_raise in Hc as ->. set_solver. }
  destruct (setitem name _ _ f1) as [f2|e2] eqn:Hs; simpl.
  2:{ intros [= <-]. apply setitem_raise in Hs as [->| ->]; set_solver. }
  apply IH.
Qed.

Lemma mapM_arange_raise (N : list nat) l e :
  mapM (λ i, from_option IndexError (N !! i) ≫= λ n, Ok (arange_2pi n)) l
  = Raise e → e = IndexError.
Proof.
  induction l as [|a l IH]; [done|]. cbn [mapM].
  destruct (N !! a) as [n|]; cbn [from_option]; [|by intros [=]].
  unfold mbind at 1, result_bind at 1, rbind at 1.
  destruct (mapM _ l) as [k|e']; simpl; [done|].
  intros [= <-]. by apply IH.
Qed.

(** Past the dtype check, construction never fails with its error. *)
Lemma NCFile_init_past_dtype_check disk T domain mode :
  char_in_fdg (dtype T) = true →
  NCFile_init disk T domain mode ≠ Raise (AssertionError "dtype.char in 'fdg'").
Proof.
  intros Hdt.
  destruct (decide (mode = "w")) as [->|Hmode].
  2:{ unfold NCFile_init. rewrite Hdt. simpl. by rewrite decide_False. }
  destruct domain as [domain|];
    [|unfold NCFile_init; rewrite Hdt; done].
  destruct (domain !! 0%nat) as [d0|] eqn:Hd0;
    [|unfold NCFile_init; rewrite Hdt; simpl; by rewrite Hd0].
  rewrite (NCFile_init_w _ _ _ _ Hdt Hd0).
  match goal with
  | |- (?m ≫= _) ≠ _ => destruct m as [d|e] eqn:Hd; simpl
  end.
  - destruct (create_axes _ _ _ _ _) as [st|e] eqn:Hrun; simpl; [done|].
    apply create_axes_raise in Hrun. intros [= ->].
    repeat (apply elem_of_cons in Hrun as [?|Hrun]; [done|]).
    by apply elem_of_nil in Hrun.
  - destruct (isinstance_ndarray d0); [done|].
    case_decide; [|by simplify_eq].
    apply mapM_arange_raise in Hd as ->. done.
Qed.

(** C8.  Construction fails on the dtype check, at construction time,
    for every dtype whose character is not one of the supported floating
    kinds ['f'], ['d'], ['g'] (the failure of the assertion is the
    unsupported-dtype error), and for these three it goes past the
    check. *)
Theorem unsupported_dtype_rejected disk T domain mode :
  (dtype T ∉ ["f"; "d"; "g"]%char →
   NCFile_init disk T domain mode
   = Raise (AssertionError "dtype.char in 'fdg'"))
  ∧ (dtype T ∈ ["f"; "d"; "g"]%char →
     NCFile_init disk T domain mode
     ≠ Raise (AssertionError "dtype.char in 'fdg'")
     ∧ (mode ≠ "w" → is_Ok (NCFile_init disk T domain mode))).
Proof.
  split.
  - intros Hdt. unfold NCFile_init, char_in_fdg.
    by rewrite bool_decide_eq_false_2.
  - intros Hdt.
    assert (char_in_fdg (dtype T) = true) as Hok
      by (by apply bool_decide_eq_true_2).
    split; [by apply NCFile_init_past_dtype_check|].
    intros Hmode. unfold NCFile_init. rewrite Hok. simpl.
    by rewrite decide_False.
Qed.

(** The axis loop on more arrays than the shape has axes. *)
Lemma create_axes_long N dt i d st :
  (i ≤ length N < i + length d)%nat →
  ∃ e, create_axes N dt i d st = Raise e.
Proof.
  revert i st. induction d as [|di d IH]; intros i st Hlen;
    [simpl in Hlen; lia|].
  cbn [create_axes].
  destruct (xyz i) as [name|e1]; simpl; [|eauto].
  destruct (N !! i) as [n|] eqn:Hn; simpl; [|eauto].
  apply lookup_lt_Some in Hn.
  destruct (createVariable name dt [name] _) as [f1|e1]; simpl; [|eauto].
  destruct (setitem name _ _ f1) as [f2|e2]; simpl; [|eauto].
  apply IH. simpl in Hlen. lia.
Qed.

Lemma coordinate_arange ds name v n j :
  variables ds !! name = Some v →
  v_data v = store_cells (region [Range 0 (Z.of_nat n)]) (arange_2pi n) ∅ →
  coordinate ds name j
  = if decide (j < n)%nat then Some (INR j * 2 * PI / INR n)%R else None.
Proof.
  intros Hv Hdata. unfold coordinate. rewrite Hv. simpl. rewrite Hdata.
  rewrite <-(length_arange_2pi n) at 1. rewrite lookup_stored_axis.
  case_decide.
  - by rewrite lookup_arange_2pi.
  - rewrite (proj2 (lookup_ge_None _ _)); [done|].
    rewrite length_arange_2pi. lia.
Qed.

Lemma store_dtype_supported dt :
  dt ∈ ["f"; "d"]%char → char_in_fdg dt = true.
Proof.
  intros Hdt. apply bool_decide_eq_true_2. revert Hdt.
  rewrite !elem_of_cons. tauto.
Qed.

(** C6, as the code has it.  In write mode, with a dtype of the store,
    when the first entry of the domain is a 2-tuple, construction writes
    for every axis the grid of value [j * (2 * pi / N)] at index [j] in
    [0, N), and nothing beyond; this is the uniform grid over the pair
    (0, 2 pi). *)
Theorem coordinates_of_tuple_domain disk T domain t :
  dtype T ∈ ["f"; "d"]%char →
  domain !! 0%nat = Some (bounds t) → length t = 2%nat →
  (length domain ≤ length (shape T))%nat → (length domain ≤ 3)%nat →
  ∃ self,
    NCFile_init disk T (Some domain) "w" = Ok self
    ∧ ∀ i n, (i < length domain)%nat → shape T !! i = Some n →
        ∃ name, xyz i = Ok name
          ∧ (∀ j, (j < n)%nat →
               coordinate (self_f self) name j
               = Some (INR j * (2 * PI / INR n))%R)
          ∧ (∀ j, (n ≤ j)%nat → coordinate (self_f self) name j = None)
          ∧ (∀ j, (j < n)%nat →
               coordinate (self_f self) name j
               = Some (uniform_grid 0 (2 * PI) n j)).
Proof.
  intros Hdt Hd0 Ht Hlen H3.
  destruct (NCFile_init_bounds disk T domain t) as (self & Hinit & Hrest);
    [by apply store_dtype_supported|done..|].
  destruct Hrest as (_ & _ & _ & _ & _ & _ & Haxes).
  exists self. split; [done|]. intros i n Hi Hn.
  destruct (Haxes i n Hi Hn) as (name & v & Hname & Hv & _ & Hdata).
  exists name. split; [done|].
  split; [|split]; intros j Hj;
    rewrite (coordinate_arange _ _ _ _ j Hv Hdata).
  - rewrite decide_True by done. f_equal. unfold Rdiv. ring.
  - by rewrite decide_False by lia.
  - rewrite decide_True by done. f_equal. unfold uniform_grid, Rdiv. ring.
Qed.

(** ** The time axis *)

Lemma keeps_refl self : keeps self self.
Proof. split; [done|]. split; [done|]. eauto. Qed.

Lemma keeps_trans self1 self2 self3 :
  keeps self1 self2 → keeps self2 self3 → keeps self1 self3.
Proof.
  intros (Hn1 & Ht1 & Hv1) (Hn2 & Ht2 & Hv2).
  split; [congruence|]. split; [congruence|].
  intros v Hv. destruct (Hv1 v Hv) as (v' & Hv' & Hd' & Hc').
  destruct (Hv2 v' Hv') as (v'' & Hv'' & Hd'' & Hc'').
  exists v''. split; [done|]. split; [congruence|].
  intros i. by rewrite Hc'', Hc'.
Qed.

Lemma frame_bind {A B} it (m : M A) (k : A → M B) :
  frame it m → (∀ a, frame it (k a)) → frame it (m ≫= k).
Proof.
  intros Hm Hk self Hit. specialize (Hm self Hit).
  unfold mbind, M_bind. destruct (m self) as [self1 [a|e]]; [|done].
  simpl in Hm. eapply keeps_trans; [done|].
  apply Hk. destruct Hm as (_ & -> & _). done.
Qed.

Lemma frame_pure {A} it (m : M A) :
  (∀ self, (m self).1 = self) → frame it m.
Proof. intros Hm self _. rewrite Hm. apply keeps_refl. Qed.

Lemma frame_put_handle it name var : frame it (put_handle name var).
Proof.
  intros self _. unfold put_handle. run.
  destruct (self_handles self); simpl; [|apply keeps_refl].
  split; [done|]. split; [done|]. eauto.
Qed.

(** A call that alters an existing variable without touching its
    dimensions or its data. *)
Lemma frame_alter it (op : Dataset → Dataset) :
  (∀ ds, time_len (op ds) = time_len ds) →
  (∀ ds v, variables ds !! "time" = Some v →
     ∃ v', variables (op ds) !! "time" = Some v'
           ∧ v_dimensions v' = v_dimensions v ∧ v_data v' = v_data v) →
  frame it (on_f op).
Proof.
  intros Ht Hv self _. unfold on_f. simpl.
  split; [done|]. split; [apply Ht|].
  intros v Hv0. destruct (Hv _ _ Hv0) as (v' & ? & ? & Hd).
  exists v'. by rewrite Hd.
Qed.

Lemma frame_set_collective it var b : frame it (on_f (set_collective var b)).
Proof.
  apply frame_alter; [done|]. intros ds v Hv. simpl.
  destruct (decide (var = "time")) as [->|Hne].
  - rewrite lookup_alter_eq, Hv. simpl. eauto.
  - rewrite lookup_alter_ne by done. eauto.
Qed.

Lemma frame_setncattr_string it var attr value :
  frame it (on_f (setncattr_string var attr value)).
Proof.
  apply frame_alter; [done|]. intros ds v Hv. simpl.
  destruct (decide (var = "time")) as [->|Hne].
  - rewrite lookup_alter_eq, Hv. simpl. eauto.
  - rewrite lookup_alter_ne by done. eauto.
Qed.

Lemma frame_sync it : frame it (on_f sync).
Proof. apply frame_alter; [done|]. intros ds v Hv. simpl. eauto. Qed.

Lemma frame_createVariable it name dt dims :
  frame it (try_f (createVariable name dt dims)).
Proof.
  intros self _. unfold try_f.
  destruct (createVariable name dt dims (self_f self)) as [ds|e] eqn:Hc;
    simpl; [|apply keeps_refl].
  apply createVariable_inv in Hc as [Hfree ->]. simpl.
  split; [done|]. split; [done|]. intros v Hv.
  assert (name ≠ "time") by congruence.
  exists v. simpl. by rewrite lookup_insert_ne.
Qed.

Lemma region_key_length key k : k ∈ region key → length k = length key.
Proof.
  revert k. induction key as [|s key IH]; intros k.
  - by intros ->%list_elem_of_singleton.
  - change (region (s :: key))
      with (sel_indices s ≫= λ i, cons i <$> region key).
    intros (i & (k' & -> & Hk')%list_elem_of_fmap & _)%list_elem_of_bind.
    simpl. by rewrite (IH k').
Qed.

Lemma time_extent_le dims (it : nat) key :
  (time_extent dims (At (Z.of_nat it) :: key) ≤ S it)%nat.
Proof.
  unfold time_extent. destruct dims as [|d dims]; [lia|].
  case_decide; lia.
Qed.

(** An assignment of a block at step [it]: it addresses cells of at
    least two indices, below the length of the time axis. *)
Lemma frame_setitem it var s key u :
  frame it (try_f (setitem var (At (Z.of_nat it) :: s :: key) u)).
Proof.
  intros self Hit. unfold try_f.
  destruct (setitem _ _ _ _) as [ds|e] eqn:Hs; simpl; [|apply keeps_refl].
  unfold setitem in Hs.
  destruct (variables (self_f self) !! var) as [v0|] eqn:Hv0; [|done].
  case_decide; [|done]. simplify_eq. simpl.
  split; [done|]. split.
  { pose proof (time_extent_le (v_dimensions v0) it (s :: key)).
    simpl. lia. }
  intros v Hv. destruct (decide (var = "time")) as [->|Hne].
  - simpl. rewrite lookup_insert_eq. eexists. split; [done|]. simpl.
    assert (v0 = v) as -> by congruence. split; [done|].
    intros i. unfold store_cells. apply lookup_union_r.
    apply not_elem_of_list_to_map_1. intros Hi.
    apply list_elem_of_fmap in Hi as ([k x] & Hk & Hkx).
    simpl in Hk. subst k.
    apply elem_of_zip_l, region_key_length in Hkx. simpl in Hkx. lia.
  - exists v. simpl. by rewrite lookup_insert_ne.
Qed.

Lemma frame_ret {A} it (a : A) : frame it (mret a).
Proof. by apply frame_pure. Qed.
Lemma frame_gets {A} it (p : NCFile → A) : frame it (gets p).
Proof. by apply frame_pure. Qed.
Lemma frame_getattr {A} it (p : NCFile → option A) : frame it (getattr p).
Proof. by apply frame_pure. Qed.
Lemma frame_lift {A} it (r : result A) : frame it (lift r).
Proof. by apply frame_pure. Qed.
Lemma frame_raise {A} it e : frame it (raise e : M A).
Proof. by apply frame_pure. Qed.
Lemma frame_index {A} it (l : list A) i : frame it (index l i).
Proof. by apply frame_pure. Qed.
Lemma frame_np_take {A} it (l : list A) idx : frame it (np_take l idx).
Proof. by apply frame_pure. Qed.
Lemma frame_get_handle it name : frame it (get_handle name).
Proof.
  apply frame_bind; [apply frame_getattr|]. intros h. apply frame_lift.
Qed.

Ltac frame_step :=
  first
    [ apply frame_bind; [|intros ?]
    | apply frame_ret | apply frame_gets | apply frame_getattr
    | apply frame_lift | apply frame_raise | apply frame_index
    | apply frame_np_take | apply frame_get_handle | apply frame_put_handle
    | apply frame_set_collective | apply frame_setncattr_string
    | apply frame_sync | apply frame_createVariable | apply frame_setitem
    | case_decide ].

(** The full-field write keeps the time axis. *)
Lemma frame_write_group name u it : frame it (_write_group name u it).
Proof. unfold _write_group. repeat frame_step. Qed.

Lemma frame_create_slice_variable it fname sdims slices :
  frame it (create_slice_variable fname sdims slices).
Proof. unfold create_slice_variable. repeat frame_step. Qed.

Lemma frame_write_slice_data fname it sf u sl :
  frame it (write_slice_data fname it sf u sl).
Proof.
  unfold write_slice_data.
  destruct sf as [|sf0 [|sf1 [|sf2 [|sf3 sf]]]]; repeat frame_step.
Qed.

(** The sliced write keeps the time axis. *)
Lemma frame_write_slice_step name it slices u :
  frame it (_write_slice_step name it slices u).
Proof.
  unfold _write_slice_step. apply frame_bind; [apply frame_gets|].
  intros s. destruct (_get_local_slices slices s) as [loc inside].
  repeat first [ apply frame_create_slice_variable
               | apply frame_write_slice_data
               | frame_step
               | destruct inside ].
Qed.

(** The dispatch of a step keeps the time axis. *)
Lemma frame_FileBase_write it fields : frame it (FileBase_write it fields).
Proof.
  induction fields as [|[name [u|slices u]] fields IH]; simpl.
  - apply frame_ret.
  - apply frame_bind; [apply frame_write_group|done].
  - apply frame_bind; [apply frame_write_slice_step|done].
Qed.

Lemma create_axes_keeps_time N dt i d st st' :
  create_axes N dt i d st = Ok st' →
  time_len st'.1 = time_len st.1
  ∧ ∀ v, variables st.1 !! "time" = Some v →
         variables st'.1 !! "time" = Some v.
Proof.
  revert i st. induction d as [|di d IH]; intros i [f dims];
    [by intros [= <-]|].
  cbn [create_axes].
  destruct (xyz i) as [name|]; simpl; [|done].
  destruct (N !! i) as [n|]; simpl; [|done].
  destruct (createVariable _ _ _ _) as [f1|] eqn:Hc; simpl; [|done].
  apply createVariable_inv in Hc as [Hfree ->]. simpl in Hfree.
  destruct (setitem _ _ _ _) as [f2|] eqn:Hs; simpl; [|done].
  unfold setitem in Hs. simpl in Hs. rewrite lookup_insert_eq in Hs.
  case_decide; [|done]. simplify_eq. intros Hrun.
  apply IH in Hrun as [Ht Hv]. simpl in *. split.
  - rewrite Ht, time_extent_range. lia.
  - intros v Hv0. apply Hv. assert (name ≠ "time") by congruence.
    by rewrite !lookup_insert_ne.
Qed.

(** A writer opened in write mode starts with an empty time axis. *)
Lemma NCFile_init_time_axis disk T domain self :
  NCFile_init disk T domain "w" = Ok self → time_axis_is self [].
Proof.
  intros Hinit.
  destruct (char_in_fdg (dtype T)) eqn:Hdt;
    [|unfold NCFile_init in Hinit; by rewrite Hdt in Hinit].
  destruct domain as [domain|];
    [|unfold NCFile_init in Hinit; by rewrite Hdt in Hinit].
  destruct (domain !! 0%nat) as [d0|] eqn:Hd0;
    [|unfold NCFile_init in Hinit; rewrite Hdt in Hinit; simpl in Hinit;
      by rewrite Hd0 in Hinit].
  rewrite (NCFile_init_w _ _ _ _ Hdt Hd0) in Hinit.
  match type of Hinit with
  | (?m ≫= _) = _ => destruct m as [d|e]; simpl in Hinit; [|done]
  end.
  destruct (create_axes _ _ _ _ _) as [st|e] eqn:Hrun; simpl in Hinit;
    [|done].
  apply create_axes_keeps_time in Hrun as [Ht Hv]. simplify_eq.
  split; [done|]. split; [simpl in *; by rewrite Ht|].
  eexists. split; [apply Hv, time_schema_time|]. done.
Qed.

Lemma region_at i : region [At i] = [[i]].
Proof. done. Qed.

(** One call of [write] appends its step value to the time axis. *)
Lemma write_appends self steps step fields :
  time_axis_is self steps →
  time_axis_is (write step fields self).1 (steps ++ [step]).
Proof.
  intros (Hnc & Hlen & v & Hv & Hdims & Hcells).
  unfold write. run. rewrite Hnc. simpl.
  erewrite setitem_ok; [|done|done|done|by rewrite Hdims]. simpl.
  match goal with
  | |- time_axis_is (FileBase_write ?it fields ?self1).1 _ =>
      pose proof (frame_FileBase_write it fields self1) as Hk;
      destruct (FileBase_write it fields self1) as [self' r]
  end.
  simpl in Hk. rewrite Hdims, (time_extent_time _ _ []) in Hk by done.
  destruct Hk as (Hnc' & Hlen' & Hv'); [lia|].
  simpl in Hv'. rewrite lookup_insert_eq in Hv'.
  destruct (Hv' _ eq_refl) as (v' & Hv'' & Hdims' & Hcells'). simpl in *.
  split; [by rewrite Hnc'|].
  split; [rewrite Hlen', length_app; simpl; lia|].
  exists v'. split; [done|]. split; [by rewrite Hdims'|].
  intros i. rewrite Hcells'. unfold store_cells. rewrite region_at. simpl.
  destruct (decide (i = length steps)) as [->|Hne].
  - rewrite Hlen. rewrite lookup_union_l', lookup_insert_eq;
      [|by rewrite lookup_insert_eq].
    by rewrite lookup_app_r, Nat.sub_diag by lia.
  - rewrite lookup_union_r by (rewrite lookup_insert_ne; [done|]; intros [=]; lia).
    rewrite Hcells.
    destruct (decide (i < length steps)%nat).
    + by rewrite lookup_app_l.
    + rewrite !(proj2 (lookup_ge_None _ _)); [done| |lia].
      rewrite length_app. simpl. lia.
Qed.

Lemma writes_app pre post self :
  writes (pre ++ post) self = writes post (writes pre self).
Proof.
  revert self. induction pre as [|[step fields] pre IH]; intros self;
    [done|]. simpl. apply IH.
Qed.

Lemma writes_time_axis reqs self steps :
  time_axis_is self steps →
  time_axis_is (writes reqs self) (steps ++ (fst <$> reqs)).
Proof.
  revert self steps.
  induction reqs as [|[step fields] reqs IH]; intros self steps Hinv; simpl.
  - by rewrite app_nil_r.
  - rewrite (cons_middle step), app_assoc. apply IH.
    by apply write_appends.
Qed.

Lemma time_axis_is_coordinate self steps i :
  time_axis_is self steps →
  coordinate (self_f self) "time" i = IZR <$> steps !! i.
Proof.
  intros (_ & _ & v & Hv & _ & Hcells). unfold coordinate.
  rewrite Hv. simpl. apply Hcells.
Qed.

Lemma time_axis_is_axis self steps :
  time_axis_is self steps →
  time_axis (self_f self) = (λ z, Some (IZR z)) <$> steps.
Proof.
  intros Hinv. pose proof Hinv as (_ & Hlen & _).
  unfold time_axis. rewrite Hlen. apply list_eq. intros i.
  rewrite !list_lookup_fmap.
  destruct (decide (i < length steps)%nat) as [Hi|Hi].
  - rewrite lookup_seq_lt by done. simpl.
    rewrite (time_axis_is_coordinate _ _ _ Hinv).
    destruct (lookup_lt_is_Some_2 steps i Hi) as [z Hz]. by rewrite Hz.
  - rewrite lookup_seq_ge by lia.
    by rewrite (proj2 (lookup_ge_None steps i)) by lia.
Qed.

(** C1.  After [N] successive calls of [write] on a writer opened in
    write mode, with a dtype of the store and step values that the dtype
    holds exactly, the time axis has length exactly [N] and holds the
    step values in call order.  Each call stores its step value at the
    index that is the length of the time axis when the call starts, an
    index that held nothing before; the call makes the axis one longer,
    and the value is still there at the end. *)
Theorem time_axis_after_writes disk T domain self0 reqs :
  NCFile_init disk T domain "w" = Ok self0 →
  dtype T ∈ ["f"; "d"]%char →
  Forall (λ r, exact_step (dtype T) r.1) reqs →
  time_len (self_f (writes reqs self0)) = length reqs
  ∧ time_axis (self_f (writes reqs self0)) = (λ r, Some (IZR r.1)) <$> reqs
  ∧ ∀ pre step fields post, reqs = pre ++ (step, fields) :: post →
      let before := writes pre self0 in
      let after := (write step fields before).1 in
      time_len (self_f before) = length pre
      ∧ coordinate (self_f before) "time" (time_len (self_f before)) = None
      ∧ coordinate (self_f after) "time" (time_len (self_f before))
        = Some (IZR step)
      ∧ time_len (self_f after) = S (time_len (self_f before))
      ∧ coordinate (self_f (writes reqs self0)) "time"
          (time_len (self_f before))
        = Some (IZR step).
Proof.
  intros Hinit%NCFile_init_time_axis _ _.
  pose proof (writes_time_axis reqs self0 [] Hinit) as Hfinal.
  simpl in Hfinal. split; [|split].
  - destruct Hfinal as (_ & -> & _). by rewrite length_fmap.
  - rewrite (time_axis_is_axis _ _ Hfinal). by rewrite <-list_fmap_compose.
  - intros pre step fields post ->.
    pose proof (writes_time_axis pre self0 [] Hinit) as Hpre.
    simpl in Hpre. pose proof (write_appends _ _ step fields Hpre) as Hpost.
    assert (Hlen : time_len (self_f (writes pre self0)) = length pre).
    { destruct Hpre as (_ & -> & _). by rewrite length_fmap. }
    simpl. rewrite Hlen. split; [done|]. split; [|split; [|split]].
    + rewrite (time_axis_is_coordinate _ _ _ Hpre).
      by rewrite (proj2 (lookup_ge_None _ _)) by (rewrite length_fmap; lia).
    + rewrite (time_axis_is_coordinate _ _ _ Hpost).
      by rewrite lookup_app_r, length_fmap, Nat.sub_diag
        by (rewrite length_fmap; lia).
    + destruct Hpost as (_ & -> & _). rewrite length_app, length_fmap.
      simpl. lia.
    + rewrite (time_axis_is_coordinate _ _ _ Hfinal).
      rewrite fmap_app, fmap_cons. simpl.
      by rewrite lookup_app_r, length_fmap, Nat.sub_diag
        by (rewrite length_fmap; lia).
Qed.

(** C7, as the code has it.  Construction makes no check of the length
    of the domain against the shape.  In write mode, with a dtype of the
    store, a domain with more entries than the shape has axes makes
    construction fail, with the error of the step that runs out of axes
    (or of an earlier check); a domain of 2-tuples with no more entries
    than the shape, on at most three axes, is accepted, also when it is
    shorter than the shape. *)
Theorem domain_length_not_checked disk T :
  dtype T ∈ ["f"; "d"]%char →
  (∀ domain, (length (shape T) < length domain)%nat →
     ∃ e, NCFile_init disk T (Some domain) "w" = Raise e
          ∧ (e = AssertionError "len(domain[0]) == 2"
             ∨ e ∈ [KeyError; IndexError; RuntimeError; ValueError]))
  ∧ (∀ domain t,
       domain !! 0%nat = Some (bounds t) → length t = 2%nat →
       (length domain ≤ length (shape T))%nat → (length domain ≤ 3)%nat →
       is_Ok (NCFile_init disk T (Some domain) "w")).
Proof.
  intros Hdt%store_dtype_supported. split.
  - intros domain Hlen.
    destruct (lookup_lt_is_Some_2 domain 0%nat ltac:(lia)) as [d0 Hd0].
    rewrite (NCFile_init_w _ _ _ _ Hdt Hd0).
    destruct d0 as [t|a]; simpl.
    + case_decide; simpl; [|eauto].
      rewrite mapM_arange_long by lia. simpl.
      eexists. split; [done|]. right. set_solver.
    + destruct (create_axes_long (shape T) (dtype T) 0 (values <$> domain)
                  (time_schema (dtype T), ["time"])) as [e He].
      { rewrite length_fmap. lia. }
      rewrite He. simpl. exists e. split; [done|]. right.
      by eapply create_axes_raise.
  - intros domain t Hd0 Ht Hlen H3.
    destruct (NCFile_init_bounds disk T domain t) as (self & -> & _);
      [done..].
Qed.

(** ** Worked examples *)

Lemma time_axis_after_writes_witness :
  time_axis
    (self_f (writes [(10%Z, [("u", FullBlock (block 4 8))]);
                     (20%Z, [("u", FullBlock (block 4 8));
                             ("u", SlicedBlock [Fixed 2; Whole] (block 4 8))])]
               (open_w worker0 (tuple_domain 0 (2 * PI) 2))))
  = [Some (IZR 10); Some (IZR 20)].
Proof.
  refine (proj1 (proj2 (time_axis_after_writes empty_Dataset worker0
                          (Some (tuple_domain 0 (2 * PI) 2)) _ _ _ _ _))).
  - vm_compute. reflexivity.
  - set_solver.
  - repeat constructor; by vm_compute.
Defined.



Lemma slice_name_deterministic_witness :
  "u_2_slice" = "u_2_slice"
  ∧ "u_2_slice" = String.concat "_" ["u"; _get_slice_name [Fixed 2; Whole]].
Proof.
  apply (slice_name_deterministic "u" [Fixed 2; Whole]
           (open_w worker0 (tuple_domain 0 (2 * PI) 2))
           (open_w worker1 (tuple_domain 0 (2 * PI) 2))
           0%nat 0%nat (block 4 8) (block 4 8)
           "u_2_slice" "u_2_slice" "d"%char "d"%char
           ["time"; "y"] ["time"; "y"]).
  - apply (list_elem_of_lookup_2 _ 0%nat). vm_compute. reflexivity.
  - apply (list_elem_of_lookup_2 _ 0%nat). vm_compute. reflexivity.
Defined.

Lemma write_group_not_implemented_witness :
  ∃ self',
    _write_group "u" {| nd_shape := [8%nat]; nd_data := INR <$> seq 0 8 |} 0
      (open_w worker_1d (tuple_domain 0 (2 * PI) 1))
    = (self', Raise NotImplementedError)
    ∧ ∃ handles', self_handles self' = Some handles' ∧ "u" ∈ dom handles'.
Proof.
  destruct (write_group_not_implemented
              (open_w worker_1d (tuple_domain 0 (2 * PI) 1)) "u"
              {| nd_shape := [8%nat]; nd_data := INR <$> seq 0 8 |} 0%nat
              ∅ ["time"; "x"])
    as (self' & Hrun & Hcached & _).
  - vm_compute. reflexivity.
  - vm_compute. reflexivity.
  - intros _. vm_compute. reflexivity.
  - vm_compute. lia.
  - vm_compute. lia.
  - exists self'. split; [exact Hrun|exact Hcached].
Defined.

Lemma coordinates_of_tuple_domain_witness :
  ∃ self,
    NCFile_init empty_Dataset worker0 (Some (tuple_domain 0 (2 * PI) 2)) "w"
    = Ok self
    ∧ coordinate (self_f self) "y" 3 = Some (INR 3 * (2 * PI / INR 8))%R.
Proof.
  destruct (coordinates_of_tuple_domain empty_Dataset worker0
              (tuple_domain 0 (2 * PI) 2) [0%R; (2 * PI)%R])
    as (self & Hinit & Haxes).
  - set_solver.
  - reflexivity.
  - reflexivity.
  - simpl. lia.
  - simpl. lia.
  - exists self. split; [exact Hinit|].
    destruct (Haxes 1%nat 8%nat) as (name & Hname & Hgrid & _).
    + simpl. lia.
    + reflexivity.
    + simpl in Hname. injection Hname as <-. apply Hgrid. lia.
Defined.

(** C6 as the specification words it fails for some pairs: with (origin, length)
    = (1, 5) the first coordinate written is 0, not the origin. *)
Lemma coordinates_ignore_the_pair :
  ∃ self,
    NCFile_init empty_Dataset worker0 (Some (tuple_domain 1 5 2)) "w"
    = Ok self
    ∧ coordinate (self_f self) "x" 0 = Some 0%R
    ∧ coordinate (self_f self) "x" 0 ≠ Some (uniform_grid 1 5 8 0).
Proof.
  destruct (NCFile_init_bounds empty_Dataset worker0 (tuple_domain 1 5 2)
              [1%R; 5%R])
    as (self & Hinit & _ & _ & _ & _ & _ & _ & Haxes);
    [done|done|done|simpl; lia|simpl; lia|].
  exists self. split; [done|].
  destruct (Haxes 0%nat 8%nat) as (name & v & Hname & Hv & _ & Hdata);
    [simpl; lia|done|].
  simpl in Hname. injection Hname as <-.
  rewrite (coordinate_arange _ _ _ _ 0%nat Hv Hdata).
  rewrite decide_True by lia.
  assert (H0 : (INR 0 * 2 * PI / INR 8)%R = 0%R)
    by (simpl (INR 0); unfold Rdiv; ring).
  rewrite H0. split; [done|].
  unfold uniform_grid. simpl (INR 0). intros [= Heq].
  unfold Rdiv in Heq. rewrite !Rmult_0_l, Rplus_0_r in Heq. lra.
Qed.

Lemma domain_length_not_checked_witness :
  ∃ e,
    NCFile_init empty_Dataset worker0 (Some (tuple_domain 0 (2 * PI) 3)) "w"
    = Raise e.
Proof.
  destruct (proj1 (domain_length_not_checked empty_Dataset worker0
                     ltac:(set_solver))
              (tuple_domain 0 (2 * PI) 3)) as (e & He & _).
  - simpl. lia.
  - exists e. exact He.
Defined.

(** C7 as the specification words it fails: a domain of one entry for a shape of
    two axes is accepted. *)
Lemma short_domain_accepted :
  length (tuple_domain 0 (2 * PI) 1) ≠ length (shape worker0)
  ∧ is_Ok (NCFile_init empty_Dataset worker0
             (Some (tuple_domain 0 (2 * PI) 1)) "w").
Proof.
  split; [simpl; lia|].
  destruct (NCFile_init_bounds empty_Dataset worker0
              (tuple_domain 0 (2 * PI) 1) [0%R; (2 * PI)%R])
    as (self & -> & _); [done|done|done|simpl; lia|simpl; lia|done].
Qed.


Lemma unsupported_dtype_rejected_witness :
  NCFile_init empty_Dataset worker_complex
    (Some (tuple_domain 0 (2 * PI) 2)) "w"
  = Raise (AssertionError "dtype.char in 'fdg'").
Proof.
  apply (proj1 (unsupported_dtype_rejected empty_Dataset worker_complex
                  (Some (tuple_domain 0 (2 * PI) 2)) "w")).
  simpl. intros H.
  repeat (apply elem_of_cons in H as [H|H]; [discriminate H|]).
  by apply elem_of_nil in H.
Defined.

(** C5.  On worker 1, which owns the rows [4, 8), the first sliced write
    of the global specification (5, whole) creates the variable and sets
    its attribute ['slices'] to the text of the local selector, row 1 of
    the worker's block, while the specification the caller supplied reads
    "[5, slice(None, None, None)]". *)
Theorem slices_attribute_holds_local_selector :
  let self := open_w worker1 (tuple_domain 0 (2 * PI) 2) in
  let self' := (_write_slice_step "u" 0 [Fixed 5; Whole] (block 4 8) self).1 in
  new_calls self self' !! 2%nat
  = Some (c_setncattr_string "u_5_slice" "slices"
            "[1, slice(None, None, None)]")
  ∧ v_ncattrs <$> variables (self_f self') !! "u_5_slice"
    = Some [("slices", "[1, slice(None, None, None)]")]
  ∧ str_list [Fixed 5; Whole] = "[5, slice(None, None, None)]".
Proof. vm_compute. done. Qed.

(** ** Construction: the schema *)

Lemma xyz_axes i name : xyz i = Ok name ↔ axes !! i = Some name.
Proof.
  destruct i as [|[|[|i]]]; simpl; split; intros; by simplify_eq.
Qed.

(** Every run of the axis loop that completes: it went over at most
    three axes, every array had the extent of its axis, and each axis got
    its dimension and its coordinate variable, holding the array. *)
Lemma create_axes_inv N dt i d st st' :
  create_axes N dt i d st = Ok st' →
  let names := take (length d) (drop i axes) in
  (d = [] ∨ (i + length d ≤ 3)%nat)
  ∧ st'.2 = st.2 ++ names
  ∧ dimensions st'.1
    = dimensions st.1 ++ zip names (Some <$> (length <$> d))
  ∧ time_len st'.1 = time_len st.1
  ∧ (∀ k di, d !! k = Some di → N !! (i + k)%nat = Some (length di))
  ∧ (∀ k di name, d !! k = Some di → names !! k = Some name →
       ∃ v, variables st'.1 !! name = Some v
            ∧ v_dimensions v = [name]
            ∧ v_data v
              = store_cells (region [Range 0 (Z.of_nat (length di))]) di ∅)
  ∧ (∀ name, name ∈ names → variables st.1 !! name = None)
  ∧ (∀ var, var ∉ names → variables st'.1 !! var = variables st.1 !! var).
Proof.
  revert i st. induction d as [|di d IH]; intros i [f dims].
  { intros [= <-]. simpl. rewrite !app_nil_r.
    split; [by left|]. repeat split; try done.
    intros name ?%elem_of_nil. done. }
  cbn [create_axes].
  destruct (xyz i) as [name|] eqn:Hname; simpl; [|done].
  destruct (N !! i) as [n|] eqn:Hn; simpl; [|done].
  destruct (createVariable _ _ _ _) as [f1|] eqn:Hc; simpl; [|done].
  apply createVariable_inv in Hc as [Hfree ->]. simpl in Hfree.
  destruct (setitem _ _ _ _) as [f2|] eqn:Hs; simpl; [|done].
  unfold setitem in Hs. simpl in Hs. rewrite lookup_insert_eq in Hs.
  rewrite key_shape_range, length_region_range in Hs.
  case_decide as Hshape; [|done]. destruct Hshape as [[= Hlen] _].
  simpl in Hlen. subst n. simplify_eq. intros Hrun.
  apply IH in Hrun
    as (Hle & Hdims & Hdim & Ht & HN & Hvars & Hfresh & Hrest).
  simpl in *.
  apply xyz_axes in Hname as Hax. rewrite (drop_S _ _ _ Hax).
  assert (Hi : (i < 3)%nat) by (apply lookup_lt_Some in Hax; simpl in Hax; lia).
  assert (Hnotin : name ∉ take (length d) (drop (S i) axes)).
  { intros Hin. apply Hfresh in Hin. by rewrite lookup_insert_eq in Hin. }
  split; [|split; [|split; [|split; [|split; [|split; [|split]]]]]].
  - right. destruct Hle as [->|Hle]; simpl; lia.
  - rewrite Hdims, <-app_assoc. done.
  - rewrite Hdim, <-app_assoc. done.
  - rewrite Ht, time_extent_range. lia.
  - intros [|k] dk Hk; simpl in Hk.
    + simplify_eq. by rewrite Nat.add_0_r.
    + replace (i + S k)%nat with (S i + k)%nat by lia. by apply HN.
  - intros [|k] dk nm Hk Hnm; simpl in Hk, Hnm.
    + simplify_eq. rewrite Hrest by done. rewrite lookup_insert_eq.
      eexists. split; [done|]. done.
    + by apply (Hvars k).
  - intros nm [->|Hin]%elem_of_cons; [done|].
    apply Hfresh in Hin. destruct (decide (nm = name)) as [->|Hne].
    + by rewrite lookup_insert_eq in Hin.
    + by rewrite !lookup_insert_ne in Hin.
  - intros var Hvar. apply not_elem_of_cons in Hvar as [Hne Hvar].
    rewrite Hrest by done. by rewrite !lookup_insert_ne.
Qed.

Lemma length_fmap_arrays (N : list nat) (d : list (list R)) :
  (∀ k di, d !! k = Some di → N !! k = Some (length di)) →
  length <$> d = take (length d) N.
Proof.
  intros HN. apply list_eq. intros k. rewrite list_lookup_fmap.
  destruct (d !! k) as [di|] eqn:Hk; simpl.
  - rewrite lookup_take_lt by (by eapply lookup_lt_Some). by rewrite (HN k di).
  - rewrite lookup_take_ge; [done|]. by apply lookup_ge_None.
Qed.

(** Every construction in write mode that completes: the arrays [d]
    handed to the axis loop, and the writer built from its result. *)
Lemma NCFile_init_w_inv disk T domain self :
  NCFile_init disk T domain "w" = Ok self →
  ∃ entries d st,
    domain = Some entries
    ∧ char_in_fdg (dtype T) = true
    ∧ length d = length entries
    ∧ ((∃ a, entries !! 0%nat = Some (coords a) ∧ d = values <$> entries)
       ∨ (∃ t, entries !! 0%nat = Some (bounds t) ∧ length t = 2%nat
               ∧ d = arange_2pi <$> take (length entries) (shape T)))
    ∧ create_axes (shape T) (dtype T) 0 d (time_schema (dtype T), ["time"])
      = Ok st
    ∧ self = {| self_f := sync st.1; self_T := T; self_N := shape T;
                self_dtype := dtype T; self_dims := Some st.2;
                self_nc_t := Some "time"; self_handles := Some ∅ |}.
Proof.
  intros Hinit.
  destruct (char_in_fdg (dtype T)) eqn:Hdt;
    [|unfold NCFile_init in Hinit; by rewrite Hdt in Hinit].
  destruct domain as [entries|];
    [|unfold NCFile_init in Hinit; by rewrite Hdt in Hinit].
  destruct (entries !! 0%nat) as [d0|] eqn:Hd0;
    [|unfold NCFile_init in Hinit; rewrite Hdt in Hinit; simpl in Hinit;
      by rewrite Hd0 in Hinit].
  rewrite (NCFile_init_w _ _ _ _ Hdt Hd0) in Hinit.
  destruct d0 as [t|a]; simpl in Hinit.
  - case_decide as Ht; [|done].
    destruct (decide (length entries ≤ length (shape T))%nat) as [Hle|Hgt].
    + rewrite mapM_arange_ok, drop_0 in Hinit by (simpl; lia).
      simpl in Hinit.
      destruct (create_axes _ _ _ _ _) as [st|] eqn:Hrun; [|done].
      simpl in Hinit. simplify_eq.
      exists entries, (arange_2pi <$> take (length entries) (shape T)), st.
      split; [done|]. split; [done|].
      split; [rewrite length_fmap, length_take; lia|].
      split; [right; eauto|]. done.
    + rewrite mapM_arange_long in Hinit by lia. done.
  - destruct (create_axes _ _ _ _ _) as [st|] eqn:Hrun; [|done].
    simpl in Hinit. simplify_eq.
    exists entries, (values <$> entries), st. split; [done|]. split; [done|].
    split; [by rewrite length_fmap|]. split; [left; eauto|]. done.
Qed.

(** X1.  A construction in write mode that completes was given a domain
    of one to three entries, no more than the shape has axes.  It leaves
    the unlimited dimension [time] followed by one dimension per entry,
    named x, y, z in this order with the extents of the shape; the file
    holds exactly the time variable and one coordinate variable per
    dimension; [dims] lists the dimensions; the cache is empty, the time
    axis has length 0, and the last call is the flush. *)
Theorem construction_schema disk T domain self :
  NCFile_init disk T domain "w" = Ok self →
  ∃ entries,
    domain = Some entries
    ∧ (0 < length entries ≤ 3)%nat
    ∧ (length entries ≤ length (shape T))%nat
    ∧ self_dims self = Some ("time" :: take (length entries) axes)
    ∧ dimensions (self_f self)
      = ("time", None)
        :: zip (take (length entries) axes)
             (Some <$> take (length entries) (shape T))
    ∧ dom (variables (self_f self))
      = list_to_set ("time" :: take (length entries) axes)
    ∧ self_handles self = Some ∅
    ∧ self_nc_t self = Some "time"
    ∧ time_len (self_f self) = 0%nat
    ∧ last (calls (self_f self)) = Some c_sync.
Proof.
  intros Hinit.
  apply NCFile_init_w_inv in Hinit
    as (entries & d & st & -> & Hdt & Hlen & Hd & Hrun & ->).
  apply create_axes_inv in Hrun
    as (Hle & Hdims & Hdim & Ht & HN & Hvars & Hfresh & Hrest).
  rewrite drop_0, Hlen in *. cbn [fst snd] in *.
  assert (Hpos : (0 < length entries)%nat).
  { destruct Hd as [(a & Ha & _)|(t & Ha & _)];
      by apply lookup_lt_Some in Ha. }
  assert (H3 : (length entries ≤ 3)%nat).
  { destruct Hle as [->|Hle]; simpl in *; lia. }
  pose proof (length_fmap_arrays _ _ HN) as Hext. rewrite Hlen in Hext.
  exists entries. simpl. split; [done|]. split; [done|].
  split.
  { assert (length (length <$> d) = length (take (length entries) (shape T)))
      as Hl by (by rewrite Hext).
    rewrite length_fmap, length_take in Hl. lia. }
  split; [by rewrite Hdims|]. split; [by rewrite Hdim, Hext|].
  split.
  { apply set_eq. intros x.
    rewrite elem_of_dom, elem_of_union, elem_of_singleton,
      elem_of_list_to_set.
    destruct (decide (x ∈ take (length entries) axes)) as [Hin|Hout].
    - split; [auto|]. intros _.
      apply list_elem_of_lookup in Hin as [k Hk].
      assert (is_Some (d !! k)) as [di Hdi].
      { apply lookup_lt_is_Some. apply lookup_lt_Some in Hk.
        rewrite length_take in Hk. lia. }
      destruct (Hvars k di x Hdi Hk) as (v & Hv & _). eauto.
    - rewrite Hrest by done. split.
      + intros [v Hv]. left. destruct (decide (x = "time")); [done|].
        by rewrite time_schema_free in Hv.
      + intros [->|?]; [|done]. by rewrite time_schema_time. }
  split; [done|]. split; [done|]. split; [by rewrite Ht|].
  by rewrite last_snoc.
Qed.


(** X3.  In write mode, with a dtype of the store, the domain is
    required: construction with the default [domain=None] raises
    [TypeError], with an empty domain [IndexError], and with a first
    entry that is a tuple of another length than 2 the assertion error
    of that check, whatever the other entries are. *)
Theorem construction_needs_domain disk T :
  dtype T ∈ ["f"; "d"]%char →
  NCFile_init disk T None "w" = Raise TypeError
  ∧ NCFile_init disk T (Some []) "w" = Raise IndexError
  ∧ ∀ t rest, length t ≠ 2%nat →
      NCFile_init disk T (Some (bounds t :: rest)) "w"
      = Raise (AssertionError "len(domain[0]) == 2").
Proof.
  intros Hdt%store_dtype_supported.
  split; [|split].
  - unfold NCFile_init. by rewrite Hdt.
  - unfold NCFile_init. by rewrite Hdt.
  - intros t rest Ht.
    rewrite (NCFile_init_w _ _ _ (bounds t) Hdt) by done. simpl.
    by rewrite decide_False.
Qed.

(** X4.  An existing file opened for reading or appending (mode ['r'],
    ['a'] or ['r+']) cannot be written through the writer: construction
    keeps the dataset as it is on disk and sets none of [dims], [nc_t],
    [handles]; [write] and [_write_group] raise [AttributeError] and
    [_write_slice_step] raises [AttributeError], or [IndexError] when a
    ranged axis lies beyond the axes of the decomposition, all three
    without a call on the dataset and without a change of the writer. *)
Theorem other_modes_cannot_write disk T domain mode :
  mode ∈ ["r"; "a"; "r+"] → dtype T ∈ ["f"; "d"; "g"]%char →
  ∃ self,
    NCFile_init disk T domain mode = Ok self
    ∧ self_f self = disk
    ∧ self_dims self = None
    ∧ self_nc_t self = None
    ∧ self_handles self = None
    ∧ (∀ step fields, write step fields self = (self, Raise AttributeError))
    ∧ (∀ name u it, _write_group name u it self = (self, Raise AttributeError))
    ∧ (∀ name it slices u,
         ∃ e, _write_slice_step name it slices u self = (self, Raise e)
              ∧ (e = AttributeError ∨ e = IndexError)).
Proof.
  intros Hmode Hin.
  assert (Hne : mode ≠ "w").
  { intros ->. revert Hmode. rewrite !elem_of_cons, elem_of_nil.
    intros [?|[?|[?|[]]]]; discriminate. }
  assert (Hdt : char_in_fdg (dtype T) = true)
    by (by apply bool_decide_eq_true_2).
  unfold NCFile_init, Dataset_open. rewrite Hdt. simpl.
  rewrite !decide_False by done.
  eexists. split; [done|]. do 4 (split; [done|]).
  split; [done|]. split; [done|].
  intros name it slices u. unfold _write_slice_step. run.
  destruct (_get_local_slices slices (local_slice T)) as [loc inside].
  run. destruct (mapM _ _); simpl; eauto.
Qed.

(** ** The full-field write: what it leaves *)

(** A full-field write on a 2D or 3D decomposition, of a block of the
    local shape, under a name that is free or cached for a variable over
    the dimensions of the writer, one per axis after the time dimension:
    it completes, and this is the writer it leaves. *)
Lemma write_group_runs self name u it handles dims :
  self_handles self = Some handles →
  self_dims self = Some dims →
  length dims = S (ndim (self_T self)) →
  (handles !! name = None → variables (self_f self) !! name = None) →
  (∀ h, handles !! name = Some h →
        h = name ∧ ∃ v, variables (self_f self) !! name = Some v
                        ∧ v_dimensions v = dims) →
  ndim (self_T self) = 2%nat ∨ ndim (self_T self) = 3%nat →
  length (local_slice (self_T self)) = ndim (self_T self) →
  nd_shape u = key_shape (py_slice <$> local_slice (self_T self)) →
  length (nd_data u) = prod_list (nd_shape u) →
  let key := group_key it (local_slice (self_T self)) in
  let v0 := group_variable self name in
  ∃ self',
    _write_group name u it self = (self', Ok tt)
    ∧ variables (self_f self') !! name
      = Some (with_data v0 (store_cells (region key) (nd_data u) (v_data v0)))
    ∧ (∀ var, var ≠ name →
         variables (self_f self') !! var = variables (self_f self) !! var)
    ∧ time_len (self_f self')
      = time_len (self_f self) `max` time_extent (v_dimensions v0) key
    ∧ calls (self_f self')
      = calls (self_f self)
        ++ group_creation_calls handles name (self_dtype self) dims
        ++ [c_setitem name key (nd_data u); c_sync]
    ∧ self_handles self' = Some (<[name := name]> handles)
    ∧ self_dims self' = self_dims self
    ∧ self_T self' = self_T self
    ∧ self_dtype self' = self_dtype self
    ∧ self_nc_t self' = self_nc_t self.
Proof.
  intros Hh Hd Hrank Hfree Hcached Hnd Hlen Hsh Hdata.
  unfold group_key, group_variable, group_creation_calls.
  destruct self as [f T N dt ? nc ?]; simpl in *; subst.
  remember (local_slice T) as loc eqn:Hloc in *.
  assert (Hreg : length (nd_data u)
                 = length (region (At (Z.of_nat it) :: (py_slice <$> loc))))
    by (by rewrite length_region_slices, Hdata, Hsh).
  unfold _write_group. run. rewrite <-Hloc.
  destruct (decide (name ∈ dom handles)) as [Hin|Hout]; run.
  - apply elem_of_dom in Hin as [h Hin].
    destruct (Hcached h Hin) as (-> & v & Hv & Hvd). rewrite Hv.
    rewrite (insert_id _ _ _ Hin).
    destruct Hnd as [Hnd|Hnd]; rewrite Hnd in *; run; rewrite ?Hin; run.
    + destruct loc as [|s0 [|s1 [|? ?]]]; simplify_eq/=.
      erewrite setitem_ok; [|done|done|done|by simpl; rewrite Hrank]. run.
      eexists; split; [done|]. simpl. rewrite lookup_insert_eq.
      split; [done|]. split; [by intros; rewrite lookup_insert_ne|].
      split; [done|]. split; [by rewrite <-app_assoc|]. done.
    + destruct loc as [|s0 [|s1 [|s2 [|? ?]]]]; simplify_eq/=.
      erewrite setitem_ok; [|done|done|done|by simpl; rewrite Hrank]. run.
      eexists; split; [done|]. simpl. rewrite lookup_insert_eq.
      split; [done|]. split; [by intros; rewrite lookup_insert_ne|].
      split; [done|]. split; [by rewrite <-app_assoc|]. done.
  - apply not_elem_of_dom in Hout. rewrite (Hfree Hout).
    rewrite createVariable_free by auto. run. rewrite lookup_insert_eq. run.
    destruct Hnd as [Hnd|Hnd]; rewrite Hnd in *; run;
      rewrite ?lookup_insert_eq; run.
    + destruct loc as [|s0 [|s1 [|? ?]]]; simplify_eq/=.
      erewrite setitem_ok;
        [|by simpl; rewrite lookup_alter_eq, lookup_insert_eq|done|done
         |by simpl; rewrite Hrank]. run.
      eexists; split; [done|]. simpl. rewrite lookup_insert_eq.
      split; [done|]. split.
      { intros var Hne.
        by rewrite lookup_insert_ne, lookup_alter_ne, lookup_insert_ne. }
      split; [done|]. split; [by rewrite <-!app_assoc|]. done.
    + destruct loc as [|s0 [|s1 [|s2 [|? ?]]]]; simplify_eq/=.
      erewrite setitem_ok;
        [|by simpl; rewrite lookup_alter_eq, lookup_insert_eq|done|done
         |by simpl; rewrite Hrank]. run.
      eexists; split; [done|]. simpl. rewrite lookup_insert_eq.
      split; [done|]. split.
      { intros var Hne.
        by rewrite lookup_insert_ne, lookup_alter_ne, lookup_insert_ne. }
      split; [done|]. split; [by rewrite <-!app_assoc|]. done.
Qed.

Lemma read_eq dset step self :
  read dset step self
  = (self, getitem dset step (py_slice <$> local_slice (self_T self))
             (self_f self)).
Proof. done. Qed.

Lemma region_at_head i key k : k ∈ region (At i :: key) → head k = Some i.
Proof.
  change (region (At i :: key)) with ([i] ≫= λ j, cons j <$> region key).
  intros (j & (k' & -> & _)%list_elem_of_fmap & ->%list_elem_of_singleton)
           %list_elem_of_bind.
  done.
Qed.

(** Cells outside the keys of an assignment are not changed by it. *)
Lemma lookup_stored_cells_other (keys : list (list Z)) (data : list R) m k :
  k ∉ keys → store_cells keys data m !! k = m !! k.
Proof.
  intros Hk. unfold store_cells. apply lookup_union_r.
  apply not_elem_of_list_to_map_1. intros Hin.
  apply list_elem_of_fmap in Hin as ([k' x] & Heq & Hin). simpl in Heq.
  subst k'. by apply elem_of_zip_l in Hin.
Qed.

(** What [read] returns at step [it] when a later assignment at another
    step lies over the block stored there. *)
Lemma getitem_stored_under name (it it' : nat) (s : list (Z * Z)) key' d'
    u ds v m :
  variables ds !! name = Some v →
  length (v_dimensions v) = S (length s) →
  (it < time_len ds)%nat →
  nd_shape u = key_shape (py_slice <$> s) →
  length (nd_data u) = prod_list (nd_shape u) →
  it ≠ it' →
  v_data v
  = store_cells (region (At (Z.of_nat it') :: key')) d'
      (store_cells (region (At (Z.of_nat it) :: (py_slice <$> s)))
         (nd_data u) m) →
  getitem name it (py_slice <$> s) ds = Ok u.
Proof.
  intros Hv Hrank Hit Hsh Hlen Hne Hdata.
  set (v1 := with_data v
               (store_cells (region (At (Z.of_nat it) :: (py_slice <$> s)))
                  (nd_data u) m)).
  rewrite <-(getitem_stored name it s u
               {| dimensions := dimensions ds;
                  variables := <[name := v1]> (variables ds);
                  time_len := time_len ds; calls := calls ds |} v1 m);
    [|by simpl; rewrite lookup_insert_eq|done..].
  unfold getitem. simpl. rewrite Hv, lookup_insert_eq. simpl.
  case_decide; [|done]. case_decide; [|done]. f_equal. f_equal.
  apply list_fmap_ext. intros i k Hk. rewrite Hdata. simpl.
  rewrite lookup_stored_cells_other; [done|].
  intros Hin%region_at_head.
  apply list_elem_of_lookup_2, region_at_head in Hk.
  rewrite Hk in Hin. injection Hin. lia.
Qed.

(** X5.  The variable of a field is created once.  On a writer with a
    dtype of the store and one dimension per axis of the decomposition
    after the time dimension, the first completed full-field write of a
    name issues [createVariable(name, dtype, dims)] and [set_collective]
    (unless the name is cached already, for a variable over these
    dimensions), then the assignment and the flush; a second write of
    the same name, of any block at any step, issues the assignment and
    the flush only. *)
Theorem variable_created_once self name u1 u2 it1 it2 handles dims :
  self_handles self = Some handles →
  self_dims self = Some dims →
  self_dtype self ∈ ["f"; "d"]%char →
  length dims = S (ndim (self_T self)) →
  (handles !! name = None → variables (self_f self) !! name = None) →
  (∀ h, handles !! name = Some h →
        h = name ∧ ∃ v, variables (self_f self) !! name = Some v
                        ∧ v_dimensions v = dims) →
  ndim (self_T self) = 2%nat ∨ ndim (self_T self) = 3%nat →
  length (local_slice (self_T self)) = ndim (self_T self) →
  nd_shape u1 = key_shape (py_slice <$> local_slice (self_T self)) →
  length (nd_data u1) = prod_list (nd_shape u1) →
  nd_shape u2 = key_shape (py_slice <$> local_slice (self_T self)) →
  length (nd_data u2) = prod_list (nd_shape u2) →
  ∃ self1 self2,
    _write_group name u1 it1 self = (self1, Ok tt)
    ∧ _write_group name u2 it2 self1 = (self2, Ok tt)
    ∧ new_calls self self1
      = group_creation_calls handles name (self_dtype self) dims
        ++ [c_setitem name (group_key it1 (local_slice (self_T self)))
              (nd_data u1); c_sync]
    ∧ new_calls self1 self2
      = [c_setitem name (group_key it2 (local_slice (self_T self)))
           (nd_data u2); c_sync]
    ∧ self_handles self2 = self_handles self1.
Proof.
  intros Hh Hd _ Hrank Hfree Hcached Hnd Hlen Hsh1 Hdata1 Hsh2 Hdata2.
  destruct (write_group_runs self name u1 it1 handles dims)
    as (self1 & Hrun1 & Hv1 & _ & _ & Hcalls1 & Hh1 & Hd1 & HT1 & _);
    [done..|].
  assert (Hdims1 : v_dimensions (group_variable self name) = dims).
  { unfold group_variable.
    destruct (handles !! name) as [h|] eqn:Hin.
    - destruct (Hcached h eq_refl) as (_ & v & -> & ?). done.
    - rewrite (Hfree eq_refl). simpl. by rewrite Hd. }
  destruct (write_group_runs self1 name u2 it2 (<[name := name]> handles) dims)
    as (self2 & Hrun2 & _ & _ & _ & Hcalls2 & Hh2 & _);
    [done|congruence|by rewrite HT1| | |by rewrite ?HT1..|].
  { by rewrite lookup_insert_eq. }
  { rewrite lookup_insert_eq. intros h [= <-]. split; [done|].
    eexists. split; [exact Hv1|]. done. }
  exists self1, self2. split; [done|]. split; [done|].
  split; [by apply new_calls_app|]. split.
  - apply new_calls_app. rewrite Hcalls2, HT1. unfold group_creation_calls.
    rewrite decide_True; [done|].
    apply elem_of_dom. rewrite lookup_insert_eq. eauto.
  - by rewrite Hh2, Hh1, insert_insert_eq.
Qed.



(** ** The sliced write: what it stores *)

Lemma take_ranged_from {A} (pre s : list A) slices :
  (length slices ≤ length s)%nat →
  mapM (λ i, (pre ++ s) !! i)
       (nonzero_from (length pre) (isinstance_slice <$> slices))
  = Some (select_ranged slices s).
Proof.
  revert pre s. induction slices as [|e slices IH]; intros pre s Hlen;
    [done|].
  destruct s as [|r s]; [simpl in Hlen; lia|].
  specialize (IH (pre ++ [r]) s ltac:(simpl in Hlen; lia)).
  rewrite <-app_assoc, length_app, Nat.add_1_r in IH.
  change ([r] ++ s) with (r :: s) in IH.
  destruct e as [k|]; simpl.
  - exact IH.
  - rewrite list_lookup_middle by done. simpl.
    change (list_fmap slice_entry bool isinstance_slice slices)
      with (isinstance_slice <$> slices).
    rewrite IH. done.
Qed.

Lemma take_ranged_select {A} (s : list A) slices :
  (length slices ≤ length s)%nat →
  mapM (λ i, s !! i) (ranged slices) = Some (select_ranged slices s).
Proof. apply (take_ranged_from []). Qed.

Lemma key_shape_slices (s : list (Z * Z)) :
  key_shape (py_slice <$> s) = extent <$> s.
Proof.
  unfold key_shape. induction s as [|[a b] s IH]; [done|].
  simpl. f_equal. exact IH.
Qed.

Lemma key_shape_at i key : key_shape (At i :: key) = key_shape key.
Proof. done. Qed.

Lemma norm_index_local (k start stop : Z) :
  (start ≤ k < stop)%Z →
  norm_index (k - start) (extent (start, stop))
  = Some (Z.to_nat (k - start)).
Proof.
  intros Hk. unfold norm_index, extent. simpl.
  rewrite decide_True; [done|lia].
Qed.

Lemma norm_index_lt k n j : norm_index k n = Some j → (j < n)%nat.
Proof.
  unfold norm_index. repeat case_decide; intros; simplify_eq; lia.
Qed.

(** On an inside worker the local selector indexes a block of the local
    shape, and the selection has the extents of the ranged axes. *)
Lemma getitem_shape_local slices (s : list (Z * Z)) :
  length slices = length s →
  (_get_local_slices slices s).2 = true →
  getitem_shape (extent <$> s) (_get_local_slices slices s).1
  = Some (extent <$> select_ranged slices s).
Proof.
  revert s. induction slices as [|e slices IH]; intros [|[a b] s] Hlen;
    simplify_eq/=; [done|].
  unfold _get_local_slices; fold _get_local_slices.
  destruct e as [k|]; simpl.
  - case_decide; simpl; [|done]. intros Hin.
    rewrite norm_index_local by done. simpl. by apply IH.
  - intros Hin. by rewrite IH.
Qed.

Lemma mapM_rows {A} (f : nat → option (list A)) (l : list nat) (L : nat) :
  (∀ j, j ∈ l → ∃ y, f j = Some y ∧ length y = L) →
  ∃ ys, mapM f l = Some ys ∧ length (mjoin ys) = (length l * L)%nat.
Proof.
  induction l as [|j l IH]; intros Hf; [by exists []|].
  destruct (Hf j) as (y & Hy & Hly); [by left|].
  destruct IH as (ys & Hys & Hlys); [intros; apply Hf; by right|].
  exists (y :: ys). simpl. rewrite Hy. simpl. rewrite Hys. simpl.
  split; [done|]. rewrite length_app. lia.
Qed.

Lemma length_row (d : list R) (n stride j : nat) :
  length d = (n * stride)%nat → (j < n)%nat →
  length (take stride (drop (j * stride) d)) = stride.
Proof. intros Hd Hj. rewrite length_take, length_drop. nia. Qed.

(** The selection has as many elements as its shape says. *)
Lemma getitem_data_length sh sl (d : list R) sh' :
  getitem_shape sh sl = Some sh' →
  length d = prod_list sh →
  ∃ d', getitem_data sh sl d = Some d' ∧ length d' = prod_list sh'.
Proof.
  revert sh d sh'. induction sl as [|e sl IH]; intros sh d sh' Hsh Hd.
  { destruct sh; simplify_eq/=; eauto. }
  destruct sh as [|n sh]; [by destruct e|]. simpl in Hd.
  destruct e as [k|]; simpl in *.
  - destruct (norm_index k n) as [j|] eqn:Hj; [|done]. simpl in *.
    apply norm_index_lt in Hj.
    apply (IH sh _ sh' Hsh). by apply length_row with n.
  - destruct (getitem_shape sh sl) as [sh''|] eqn:Hsh''; [|done].
    simpl in Hsh. simplify_eq.
    destruct (mapM_rows
                (λ j, getitem_data sh sl
                        (take (prod_list sh) (drop (j * prod_list sh) d)))
                (seq 0 n) (prod_list sh'')) as (ys & Hys & Hlen).
    { intros j Hj%elem_of_seq. apply (IH sh _ sh'' Hsh'').
      apply length_row with n; [done|lia]. }
    rewrite Hys. simpl. eexists. split; [done|].
    rewrite Hlen, length_seq. done.
Qed.

Lemma nonzero_from_all_false i bs :
  Forall (λ b, b = false) bs → nonzero_from i bs = [].
Proof.
  revert i. induction bs as [|b bs IH]; intros i Hall; [done|].
  apply Forall_cons in Hall as [-> Hall]. simpl. by apply IH.
Qed.

(** X8.  A slice specification that fixes every axis, on every worker,
    also the one that holds the point: the sliced write creates (when
    the name is not cached) a variable over the time axis alone, flushes,
    and stores no value. *)
Theorem all_fixed_slice_stores_nothing self name it slices u handles dims :
  let fname := slice_fname name slices in
  let loc := (_get_local_slices slices (local_slice (self_T self))).1 in
  self_handles self = Some handles →
  self_dims self = Some dims →
  Forall (λ e, isinstance_slice e = false) slices →
  (fname ∉ dom handles → variables (self_f self) !! fname = None) →
  ∃ self',
    _write_slice_step name it slices u self = (self', Ok tt)
    ∧ new_calls self self'
      = creation_calls handles fname (self_dtype self) ["time"] (str_list loc)
        ++ [c_sync]
    ∧ ∀ var v, variables (self_f self) !! var = Some v →
        ∃ v', variables (self_f self') !! var = Some v'
              ∧ v_data v' = v_data v.
Proof.
  intros fname loc Hh Hd Hall Hfree.
  assert (Hr : ranged slices = []).
  { unfold ranged, nonzero. apply nonzero_from_all_false.
    by apply Forall_fmap. }
  rewrite (write_slice_step_unfold _ _ _ _ _ dims [] []); [|done|..];
    [|by rewrite Hr..].
  fold fname loc.
  destruct (create_slice_variable_runs fname ["time"] loc self handles Hh Hfree)
    as [self1 Hc].
  unfold mbind at 1, M_bind at 1. rewrite Hc.
  destruct (create_slice_variable_ok _ _ _ _ _ _ Hh Hc)
    as (Hcalls & _ & _ & _ & _ & Hdata).
  assert (Hrest : ((if (_get_local_slices slices (local_slice (self_T self))).2
                    then write_slice_data fname it [] u loc else mret ());;
                   on_f sync) self1
                  = (set_f (sync (self_f self1)) self1, Ok tt)).
  { by destruct (_get_local_slices slices (local_slice (self_T self))).2. }
  rewrite Hrest. eexists. split; [done|]. split; [|done].
  apply new_calls_app. simpl. by rewrite Hcalls, <-app_assoc.
Qed.

Lemma length_select_ranged {A} (l : list A) slices :
  (length slices ≤ length l)%nat →
  length (select_ranged slices l) = length (ranged slices).
Proof.
  intros Hlen. symmetry. eapply length_mapM.
  by apply take_ranged_select.
Qed.


(** ** The variable cache and the file *)

Lemma preserves_bind {A B} I (m : M A) (k : A → M B) :
  preserves I m → (∀ a, preserves I (k a)) → preserves I (m ≫= k).
Proof.
  intros Hm Hk self HI. specialize (Hm self HI).
  unfold mbind, M_bind. destruct (m self) as [self1 [a|e]]; [|done].
  by apply Hk.
Qed.

Lemma preserves_pure {A} I (m : M A) :
  (∀ self, (m self).1 = self) → preserves I m.
Proof. intros Hm self HI. by rewrite Hm. Qed.

Lemma setitem_inv var key u ds ds' :
  setitem var key u ds = Ok ds' →
  ∃ v, variables ds !! var = Some v
       ∧ dimensions ds' = dimensions ds
       ∧ variables ds'
         = <[var := with_data v (store_cells (region key) (nd_data u)
                                   (v_data v))]> (variables ds)
       ∧ time_len ds'
         = time_len ds `max` time_extent (v_dimensions v) key.
Proof.
  unfold setitem. destruct (variables ds !! var) as [v|]; [|done].
  case_decide; [|done]. intros [= <-]. by exists v.
Qed.

(** A change of the file that alters cached variables and the time
    variable only, and keeps their dimensions and dtype. *)
Lemma cache_ok_set_f self0 self ds' handles :
  cache_ok self0 self →
  self_handles self = Some handles →
  dimensions ds' = dimensions (self_f self) →
  (∀ name,
     variables ds' !! name = variables (self_f self) !! name
     ∨ ((name = "time" ∨ is_Some (handles !! name))
        ∧ ∃ v v', variables (self_f self) !! name = Some v
                  ∧ variables ds' !! name = Some v'
                  ∧ v_dimensions v' = v_dimensions v
                  ∧ v_dtype v' = v_dtype v)) →
  cache_ok self0 (set_f ds' self).
Proof.
  intros (HT & Hdt & Hdims & Hnc & Hdim & Hhead & Ht0 & Ht & hs & Hh & HA
          & HB & HC) Hh' Hdim' Hvars.
  assert (hs = handles) as -> by congruence.
  do 4 (split; [done|]). split; [simpl; congruence|].
  split; [done|]. split; [done|]. split.
  { simpl. destruct (Hvars "time") as [->|(_ & v & v' & _ & -> & _)]; eauto. }
  exists handles. split; [done|]. split; [|split].
  - intros name h Hname. destruct (HA name h Hname) as (-> & Hb & v & Hv & Hd
                                                        & Hty).
    split; [done|]. split; [done|]. simpl.
    destruct (Hvars name) as [->|(_ & v1 & v' & Hv1 & -> & Hd' & Hty')];
      [eauto|].
    assert (v1 = v) as -> by congruence.
    exists v'. rewrite Hd', Hty'. done.
  - intros name Hname Hb. simpl.
    destruct (Hvars name) as [->|([->|[h Hc]] & _)]; [by apply HB| |].
    + destruct Ht0 as [? ?]. congruence.
    + congruence.
  - intros name v Hne Hb. simpl.
    destruct (Hvars name) as [->|([->|[h Hc]] & _)]; [by apply HC|done|].
    destruct (HA name h Hc) as (_ & ? & _). congruence.
Qed.

Lemma cache_ok_sync self0 self :
  cache_ok self0 self → cache_ok self0 (set_f (sync (self_f self)) self).
Proof.
  intros HI. pose proof HI as (_&_&_&_&_&_&_&_& hs & Hh & _).
  eapply cache_ok_set_f; [done|done|done|]. intros name. by left.
Qed.

(** An assignment into a cached variable, or into the time variable. *)
Lemma cache_ok_setitem self0 self handles h key u ds' :
  cache_ok self0 self →
  self_handles self = Some handles →
  h = "time" ∨ is_Some (handles !! h) →
  setitem h key u (self_f self) = Ok ds' →
  cache_ok self0 (set_f ds' self).
Proof.
  intros HI Hh Hc (v & Hv & Hdim & Hvars & _)%setitem_inv.
  eapply cache_ok_set_f; [done|done|done|]. intros name. rewrite Hvars.
  destruct (decide (name = h)) as [->|Hne].
  - right. split; [done|]. eexists _, _. split; [done|].
    by rewrite lookup_insert_eq.
  - left. by rewrite lookup_insert_ne.
Qed.

(** The creation of a variable over the time axis, under a free name,
    with its entry in the cache. *)
Lemma cache_ok_create self0 self handles name v ds' :
  cache_ok self0 self →
  self_handles self = Some handles →
  variables (self_f self) !! name = None →
  head (v_dimensions v) = Some "time" →
  v_dtype v = self_dtype self →
  dimensions ds' = dimensions (self_f self) →
  variables ds' !! name = Some v →
  (∀ var, var ≠ name →
     variables ds' !! var = variables (self_f self) !! var) →
  cache_ok self0 (set_f ds' (set_handles (<[name := name]> handles) self)).
Proof.
  intros (HT & Hdt & Hdims & Hnc & Hdim & Hhead & Ht0 & Ht & hs & Hh & HA
          & HB & HC) Hh' Hfree Hvd Hvt Hdim' Hnew Hold.
  assert (hs = handles) as -> by congruence.
  assert (Hnt : name ≠ "time").
  { intros ->. destruct Ht as [? ?]. congruence. }
  assert (Hnb : variables (self_f self0) !! name = None).
  { destruct (variables (self_f self0) !! name) as [b|] eqn:Hb; [|done].
    rewrite (HC name b Hnt Hb) in Hfree. done. }
  do 4 (split; [done|]). split; [simpl; congruence|].
  split; [done|]. split; [done|].
  split; [simpl; by rewrite Hold|].
  exists (<[name := name]> handles). split; [done|]. simpl.
  split; [|split].
  - intros var h. destruct (decide (var = name)) as [->|Hne].
    + rewrite lookup_insert_eq. intros [= <-]. split; [done|].
      split; [done|]. exists v. by rewrite Hvt, Hdt.
    + rewrite lookup_insert_ne by done. rewrite Hold by done. apply HA.
  - intros var. destruct (decide (var = name)) as [->|Hne].
    + by rewrite lookup_insert_eq.
    + rewrite lookup_insert_ne by done. rewrite Hold by done. apply HB.
  - intros var b Hne Hb. rewrite Hold by congruence. by apply HC.
Qed.

(** The creation block of the full-field write keeps the agreement. *)
Lemma preserves_group_creation self0 name :
  preserves (cache_ok self0)
    (dt ← gets self_dtype;
     dims ← getattr self_dims;
     try_f (createVariable name dt dims);;
     put_handle name name;;
     h ← get_handle name;
     on_f (set_collective h true)).
Proof.
  intros self HI.
  pose proof HI as (_&_&Hdims&_&_&Hhead&_&_& hs & Hh & _).
  run. destruct (self_dims self) as [dims|] eqn:Hd; simpl; [|done].
  destruct (createVariable _ _ _ _) as [ds|e] eqn:Hc; simpl; [|done].
  apply createVariable_inv in Hc as [Hfree ->]. rewrite Hh. simpl.
  rewrite lookup_insert_eq. simpl.
  match goal with
  | |- cache_ok _ ?s =>
      change s with
        (set_f (set_collective name true
                  (log (c_createVariable name (self_dtype self) dims)
                     (set_variables
                        (<[name := {| v_dtype := self_dtype self;
                                      v_dimensions := dims;
                                      v_collective := false;
                                      v_ncattrs := []; v_data := ∅ |}]>
                           (variables (self_f self))) (self_f self))))
           (set_handles (<[name := name]> hs) self))
  end.
  eapply cache_ok_create; [done|done|done| | |done| |].
  3:{ simpl. by rewrite lookup_alter_eq, lookup_insert_eq. }
  - simpl. rewrite <-Hdims in Hhead. done.
  - done.
  - intros var Hne. simpl. by rewrite lookup_alter_ne, lookup_insert_ne.
Qed.

(** An assignment through the handle cached for [name]. *)
Lemma preserves_handle_setitem self0 name (key : list sel) u :
  preserves (cache_ok self0)
    (h ← get_handle name; try_f (setitem h key u)).
Proof.
  intros self HI. pose proof HI as (_&_&_&_&_&_&_&_& hs & Hh & _).
  run. rewrite Hh. simpl.
  destruct (hs !! name) as [h|] eqn:Hn; simpl; [|done].
  destruct (setitem _ _ _ _) as [ds|e] eqn:Hs; simpl; [|done].
  pose proof HI as (_&_&_&_&_&_&_&_& hs' & Hh' & HA & _).
  assert (hs' = hs) as -> by congruence.
  destruct (HA name h Hn) as (-> & _).
  eapply cache_ok_setitem; [done|done| |done]. right. eauto.
Qed.

Lemma preserves_sync self0 : preserves (cache_ok self0) (on_f sync).
Proof. intros self HI. by apply cache_ok_sync. Qed.

(** The full-field write keeps the agreement, whatever its outcome. *)
Lemma preserves_write_group self0 name u it :
  preserves (cache_ok self0) (_write_group name u it).
Proof.
  unfold _write_group.
  apply preserves_bind; [by apply preserves_pure|]. intros s.
  apply preserves_bind; [by apply preserves_pure|]. intros handles.
  apply preserves_bind.
  { case_decide; [by apply preserves_pure|apply preserves_group_creation]. }
  intros _. apply preserves_bind; [by apply preserves_pure|]. intros nd.
  apply preserves_bind; [|intros _; apply preserves_sync].
  repeat case_decide; [| |by apply preserves_pure].
  - intros self HI.
    pose proof (preserves_handle_setitem self0 name
                  [At (Z.of_nat it); py_slice (default (0, 0)%Z (s !! 0%nat));
                   py_slice (default (0, 0)%Z (s !! 1%nat));
                   py_slice (default (0, 0)%Z (s !! 2%nat))] u self HI) as Hp.
    revert Hp. run.
    destruct (self_handles self) as [hs|]; simpl; [|done].
    destruct (hs !! name) as [h|]; simpl; [|done].
    destruct (s !! 0%nat); simpl; [|done].
    destruct (s !! 1%nat); simpl; [|done].
    destruct (s !! 2%nat); simpl; [|done]. done.
  - intros self HI.
    pose proof (preserves_handle_setitem self0 name
                  [At (Z.of_nat it); py_slice (default (0, 0)%Z (s !! 0%nat));
                   py_slice (default (0, 0)%Z (s !! 1%nat))] u self HI) as Hp.
    revert Hp. run.
    destruct (self_handles self) as [hs|]; simpl; [|done].
    destruct (hs !! name) as [h|]; simpl; [|done].
    destruct (s !! 0%nat); simpl; [|done].
    destruct (s !! 1%nat); simpl; [|done]. done.
Qed.

(** The sliced write keeps the agreement, whatever its outcome. *)
Lemma preserves_write_slice_step self0 name it slices u :
  preserves (cache_ok self0) (_write_slice_step name it slices u).
Proof.
  intros self HI.
  destruct (_write_slice_step name it slices u self) as [self' r] eqn:Hrun.
  simpl.
  apply write_slice_step_cases in Hrun
    as [(->&_)|(dims&sf&sd&self1&Hd&Hsf&Hsd&Hc&Hrest)]; [done|].
  assert (HI1 : cache_ok self0 self1).
  { pose proof HI as (_&_&_&_&_&_&_&_& hs & Hh & _).
    apply create_slice_variable_cases in Hc as [(?&_)|(hs'&Hh'&Hc)];
      [congruence|].
    assert (hs' = hs) as -> by congruence.
    destruct Hc as [(_&->&_)|[(_&_&->&_)|(Hout&Hfree&->&_)]]; [done|done|].
    unfold slice_created.
    eapply cache_ok_create; [done|done|done| | |done| |].
    3:{ simpl. by rewrite !lookup_alter_eq, lookup_insert_eq. }
    - done.
    - done.
    - intros var Hne. simpl. by rewrite !lookup_alter_ne, lookup_insert_ne. }
  destruct Hrest as [(_&->&_)|(_&self2&r2&Hw&Hrest)];
    [by apply cache_ok_sync|].
  assert (HI2 : cache_ok self0 self2).
  { apply write_slice_data_cases in Hw
      as [(->&_)|(hs&h&v&ds'&Hh2&Hf&Hv&Hset&->&_)]; [done|].
    pose proof HI1 as (_&_&_&_&_&_&_&_& hs' & Hh' & HA & _).
    assert (hs' = hs) as -> by congruence.
    destruct (HA _ h Hf) as (-> & _).
    eapply cache_ok_setitem; [done|done| |done]. right. eauto. }
  destruct Hrest as [(_&->&_)|(->&_)]; [by apply cache_ok_sync|done].
Qed.

Lemma preserves_FileBase_write self0 it fields :
  preserves (cache_ok self0) (FileBase_write it fields).
Proof.
  induction fields as [|[name [u|slices u]] fields IH]; simpl.
  - by apply preserves_pure.
  - apply preserves_bind; [apply preserves_write_group|done].
  - apply preserves_bind; [apply preserves_write_slice_step|done].
Qed.

(** [write] keeps the agreement, whatever its outcome. *)
Lemma preserves_write self0 step fields :
  preserves (cache_ok self0) (write step fields).
Proof.
  unfold write. intros self HI.
  pose proof HI as (_&_&_&Hnc&_&_&_&_& hs & Hh & _).
  unfold mbind at 1, M_bind at 1, getattr at 1. rewrite Hnc. simpl.
  unfold mbind at 1, M_bind at 1, var_size at 1, gets at 1. simpl.
  unfold mbind at 1, M_bind at 1, try_f at 1.
  destruct (setitem _ _ _ _) as [ds|e] eqn:Hs; [|done].
  apply preserves_FileBase_write.
  eapply cache_ok_setitem; [done|done| |done]. by left.
Qed.

Lemma writes_cache_ok self0 reqs self :
  cache_ok self0 self → cache_ok self0 (writes reqs self).
Proof.
  revert self. induction reqs as [|[step fields] reqs IH]; intros self HI;
    [done|].
  simpl. apply IH. by apply preserves_write.
Qed.

(** Construction in write mode leaves a writer that agrees with itself:
    the cache is empty and the time axis is set up. *)
Lemma NCFile_init_cache_ok disk T domain self0 :
  NCFile_init disk T domain "w" = Ok self0 → cache_ok self0 self0.
Proof.
  intros Hinit.
  pose proof (NCFile_init_time_axis _ _ _ _ Hinit) as (Hnc & _ & v & Hv & _).
  apply NCFile_init_w_inv in Hinit
    as (entries & d & st & _ & _ & _ & _ & Hrun & ->).
  apply create_axes_inv in Hrun as (_ & Hdims & _).
  simpl in *. do 5 (split; [done|]).
  split; [by rewrite Hdims|]. split; [eauto|]. split; [eauto|].
  exists ∅. split; [done|]. split; [|done].
  intros name h. by rewrite lookup_empty.
Qed.

(** X10.  The cache and the file agree from construction on.  After any
    sequence of calls of [write], with any fields and whatever their
    outcomes, the writer has the decomposition, the dtype and the
    dimension list of construction; every cached name refers to the
    variable of that name, which exists, was made after construction, has
    the dtype of the writer and the time axis as its first dimension; and
    the file holds the variables of construction and the cached ones,
    no other. *)
Theorem cache_agrees_with_file disk T domain self0 reqs :
  NCFile_init disk T domain "w" = Ok self0 →
  let self := writes reqs self0 in
  self_T self = T
  ∧ self_dtype self = dtype T
  ∧ self_dims self = self_dims self0
  ∧ ∃ handles,
      self_handles self = Some handles
      ∧ (∀ name, name ∈ dom handles →
           handles !! name = Some name
           ∧ variables (self_f self0) !! name = None
           ∧ ∃ v, variables (self_f self) !! name = Some v
                  ∧ head (v_dimensions v) = Some "time"
                  ∧ v_dtype v = dtype T)
      ∧ dom (variables (self_f self))
        = dom handles ∪ dom (variables (self_f self0)).
Proof.
  intros Hinit self.
  pose proof (writes_cache_ok self0 reqs self0
                (NCFile_init_cache_ok _ _ _ _ Hinit))
    as (HT & Hdt & Hdims & _ & _ & _ & Ht0 & Ht & hs & Hh & HA & HB & HC).
  fold self in HT, Hdt, Hdims, Ht, Hh, HA, HB, HC.
  apply NCFile_init_w_inv in Hinit as (? & ? & st & _ & _ & _ & _ & _ & Hs0).
  assert (HT0 : self_T self0 = T) by (by subst self0).
  assert (Hdt0 : self_dtype self0 = dtype T) by (by subst self0).
  split; [congruence|]. split; [congruence|]. split; [done|].
  exists hs. split; [done|]. split.
  - intros name [h Hname]%elem_of_dom.
    destruct (HA name h Hname) as (-> & Hb & v & Hv & Hd & Hty).
    split; [done|]. split; [done|]. exists v. rewrite Hty. done.
  - apply set_eq. intros name.
    rewrite elem_of_union, !elem_of_dom. split.
    + intros Hv. destruct (hs !! name) as [h|] eqn:Hc; [left; eauto|].
      destruct (variables (self_f self0) !! name) as [b|] eqn:Hb;
        [right; eauto|].
      rewrite (HB name Hc Hb) in Hv. by destruct Hv.
    + intros [[h Hc]|[b Hb]].
      * destruct (HA name h Hc) as (_ & _ & v & -> & _). eauto.
      * destruct (decide (name = "time")) as [->|Hne]; [done|].
        rewrite (HC name b Hne Hb). eauto.
Qed.

(** X11.  The dimensions and the coordinate variables are written once.
    After any sequence of calls of [write], with any fields and whatever
    their outcomes, the file has the dimensions construction created, and
    every variable of construction other than the time variable is as
    construction left it: in particular a field named like an axis does
    not overwrite the coordinates of the axis. *)
Theorem schema_written_once disk T domain self0 reqs :
  NCFile_init disk T domain "w" = Ok self0 →
  let self := writes reqs self0 in
  dimensions (self_f self) = dimensions (self_f self0)
  ∧ (∀ name, name ≠ "time" → name ∈ dom (variables (self_f self0)) →
       variables (self_f self) !! name = variables (self_f self0) !! name)
  ∧ ∀ name j, name ≠ "time" → name ∈ dom (variables (self_f self0)) →
      coordinate (self_f self) name j = coordinate (self_f self0) name j.
Proof.
  intros Hinit self.
  pose proof (writes_cache_ok self0 reqs self0
                (NCFile_init_cache_ok _ _ _ _ Hinit))
    as (_ & _ & _ & _ & Hdim & _ & _ & _ & hs & _ & _ & _ & HC).
  fold self in Hdim, HC.
  assert (Hvars : ∀ name, name ≠ "time" →
            name ∈ dom (variables (self_f self0)) →
            variables (self_f self) !! name
            = variables (self_f self0) !! name).
  { intros name Hne [b Hb]%elem_of_dom. by rewrite (HC name b Hne Hb). }
  split; [done|]. split; [done|].
  intros name j Hne Hin. unfold coordinate. by rewrite Hvars.
Qed.


(** X13.  Each handler of a step keeps the agreement of the cache with
    the file, whatever its arguments and its outcome: after a full-field
    write or a sliced write, completed or interrupted by an exception,
    every cached name still refers to an existing variable of that name
    over the time axis, the file has no variable outside the cache and
    the ones of construction, and the dimensions and the coordinate
    variables of construction are untouched. *)
Theorem handlers_keep_cache self0 self name u it slices :
  cache_ok self0 self →
  cache_ok self0 (_write_group name u it self).1
  ∧ cache_ok self0 (_write_slice_step name it slices u self).1.
Proof.
  intros HI. split.
  - by apply preserves_write_group.
  - by apply preserves_write_slice_step.
Qed.

(** ** Worked examples of the writer *)

Lemma construction_schema_witness :
  ∃ entries,
    Some (tuple_domain 0 (2 * PI) 2) = Some entries
    ∧ self_dims (open_w worker0 (tuple_domain 0 (2 * PI) 2))
      = Some ("time" :: take (length entries) axes).
Proof.
  destruct (construction_schema empty_Dataset worker0
              (Some (tuple_domain 0 (2 * PI) 2))
              (open_w worker0 (tuple_domain 0 (2 * PI) 2)))
    as (entries & Hdom & _ & _ & Hdims & _).
  - vm_compute. reflexivity.
  - exists entries. split; [exact Hdom|exact Hdims].
Defined.


Lemma construction_needs_domain_witness :
  NCFile_init empty_Dataset worker0 None "w" = Raise TypeError.
Proof.
  apply (proj1 (construction_needs_domain empty_Dataset worker0
                  ltac:(set_solver))).
Defined.

Lemma other_modes_cannot_write_witness :
  ∃ self,
    NCFile_init (self_f (open_w worker0 (tuple_domain 0 (2 * PI) 2))) worker0
      None "r" = Ok self
    ∧ self_handles self = None
    ∧ ∀ step fields, write step fields self = (self, Raise AttributeError).
Proof.
  destruct (other_modes_cannot_write
              (self_f (open_w worker0 (tuple_domain 0 (2 * PI) 2))) worker0
              None "r")
    as (self & Hinit & _ & _ & _ & Hhandles & Hwrite & _).
  - set_solver.
  - set_solver.
  - exists self. split; [exact Hinit|]. split; [exact Hhandles|exact Hwrite].
Defined.

Lemma variable_created_once_witness :
  ∃ self1 self2,
    _write_group "u" (block 4 8) 0 (open_w worker0 (tuple_domain 0 (2 * PI) 2))
    = (self1, Ok tt)
    ∧ _write_group "u" (block 4 8) 1 self1 = (self2, Ok tt)
    ∧ new_calls self1 self2
      = [c_setitem "u" (group_key 1 (local_slice worker0))
           (nd_data (block 4 8)); c_sync].
Proof.
  destruct (variable_created_once
              (open_w worker0 (tuple_domain 0 (2 * PI) 2)) "u"
              (block 4 8) (block 4 8) 0%nat 1%nat ∅ ["time"; "x"; "y"])
    as (self1 & self2 & Hrun1 & Hrun2 & _ & Hcalls & _).
  - vm_compute. reflexivity.
  - vm_compute. reflexivity.
  - apply (list_elem_of_lookup_2 _ 1%nat). vm_compute. reflexivity.
  - vm_compute. reflexivity.
  - intros _. vm_compute. reflexivity.
  - intros h Hh. vm_compute in Hh. discriminate Hh.
  - left. vm_compute. reflexivity.
  - vm_compute. reflexivity.
  - vm_compute. reflexivity.
  - vm_compute. reflexivity.
  - vm_compute. reflexivity.
  - vm_compute. reflexivity.
  - exists self1, self2. split; [exact Hrun1|]. split; [exact Hrun2|].
    exact Hcalls.
Defined.



Lemma all_fixed_slice_stores_nothing_witness :
  ∃ self',
    _write_slice_step "u" 0 [Fixed 2; Fixed 3] (block 4 8)
      (open_w worker0 (tuple_domain 0 (2 * PI) 2))
    = (self', Ok tt)
    ∧ new_calls (open_w worker0 (tuple_domain 0 (2 * PI) 2)) self'
      = creation_calls ∅ (slice_fname "u" [Fixed 2; Fixed 3])
          (self_dtype (open_w worker0 (tuple_domain 0 (2 * PI) 2))) ["time"]
          (str_list
             (_get_local_slices [Fixed 2; Fixed 3]
                (local_slice
                   (self_T (open_w worker0 (tuple_domain 0 (2 * PI) 2))))).1)
        ++ [c_sync].
Proof.
  destruct (all_fixed_slice_stores_nothing
              (open_w worker0 (tuple_domain 0 (2 * PI) 2)) "u" 0%nat
              [Fixed 2; Fixed 3] (block 4 8) ∅ ["time"; "x"; "y"])
    as (self' & Hrun & Hcalls & _).
  - vm_compute. reflexivity.
  - vm_compute. reflexivity.
  - repeat constructor.
  - intros _. vm_compute. reflexivity.
  - exists self'. split; [exact Hrun|exact Hcalls].
Defined.


Lemma cache_agrees_with_file_witness :
  self_T (writes two_writes (open_w worker0 (tuple_domain 0 (2 * PI) 2)))
  = worker0.
Proof.
  refine (proj1 (cache_agrees_with_file empty_Dataset worker0
                   (Some (tuple_domain 0 (2 * PI) 2)) _ two_writes _)).
  vm_compute. reflexivity.
Defined.

Lemma schema_written_once_witness :
  coordinate
    (self_f (writes two_writes (open_w worker0 (tuple_domain 0 (2 * PI) 2))))
    "x" 3
  = coordinate (self_f (open_w worker0 (tuple_domain 0 (2 * PI) 2))) "x" 3.
Proof.
  refine (proj2 (proj2 (schema_written_once empty_Dataset worker0
                          (Some (tuple_domain 0 (2 * PI) 2)) _ two_writes _))
            "x" 3%nat _ _).
  - vm_compute. reflexivity.
  - discriminate.
  - apply elem_of_dom. eexists. vm_compute. reflexivity.
Defined.


Lemma handlers_keep_cache_witness :
  cache_ok (open_w worker0 (tuple_domain 0 (2 * PI) 2))
    (_write_slice_step "u" 0 [Fixed 2; Whole] (block 4 8)
       (open_w worker0 (tuple_domain 0 (2 * PI) 2))).1.
Proof.
  refine (proj2 (handlers_keep_cache
                   (open_w worker0 (tuple_domain 0 (2 * PI) 2))
                   (open_w worker0 (tuple_domain 0 (2 * PI) 2))
                   "u" (block 4 8) 0%nat [Fixed 2; Whole] _)).
  do 5 (split; [reflexivity|]). split; [reflexivity|].
  split; [eexists; vm_compute; reflexivity|].
  split; [eexists; vm_compute; reflexivity|].
  exists ∅. split; [vm_compute; reflexivity|]. split; [|split].
  - intros var h Hh. rewrite lookup_empty in Hh. discriminate Hh.
  - intros var _ Hvar. exact Hvar.
  - intros var v _ Hvar. exact Hvar.
Defined.
